(** * Study-planning agents: persistence and calendar tools, conversation runner

    A shallow embedding of
      - [app/services/tools/agent_tools.py]      (save_schedule_json, load_schedule_json)
      - [app/services/tools/google_calendar.py]  (create_events_from_plan)
      - [app/agents/study_planning_team.py]      (run_conversation, run_conversation_with_socket)

    Python values that travel through the tools are JSON documents; a Python
    [dict] with string keys is a [gmap string json].  Statements run in a
    state-and-exception monad over an explicit world (files, standard output,
    the remote calendar): an exception keeps the effects that happened before
    it was raised, as in Python. *)

From stdpp Require Import gmap strings list fin_maps.

Set Default Proof Using "Type".
#[local] Set Warnings "-register-all".
#[local] Open Scope string_scope.
#[local] Open Scope list_scope.

(** ** Python values

    Numbers are kept as integers: no tool reads a number. *)

Inductive json :=
| JNull
| JBool (b : bool)
| JNum (n : Z)
| JStr (s : string)
| JList (l : list json)
| JDict (m : gmap string json).

(** [dict [(k1,v1); ...]] is the dict literal [{k1: v1, ...}] (distinct keys). *)
Definition dict (kvs : list (string * json)) : json := JDict (list_to_map kvs).

(** ** Exceptions

    [KeyError] carries the missing key; [OtherException] is any other class
    deriving from [Exception] (an HTTP error of the calendar client, a model
    client error); [BaseOnly] is a class deriving from [BaseException] only
    ([asyncio.CancelledError], [KeyboardInterrupt]). *)

Inductive exn :=
| KeyError (key : string)
| TypeError (msg : string)
| AttributeError (msg : string)
| ValueError (msg : string)
| FileNotFoundError (msg : string)
| OtherException (cls msg : string)
| BaseOnly (cls msg : string).

(** [isinstance(e, Exception)]: what an [except Exception] clause catches. *)
Definition is_Exception (e : exn) : bool :=
  match e with
  | BaseOnly _ _ => false
  | _ => true
  end.

(** [str(e)]: a [KeyError] prints the repr of its key. *)
Definition str_exn (e : exn) : string :=
  match e with
  | KeyError k => ("'" ++ k ++ "'")%string
  | TypeError m | AttributeError m | ValueError m | FileNotFoundError m => m
  | OtherException _ m | BaseOnly _ m => m
  end.

Inductive outcome (A : Type) :=
| Return (a : A)
| Raise (e : exn).
Arguments Return {A} a.
Arguments Raise {A} e.

Definition obind {A B} (x : outcome A) (k : A → outcome B) : outcome B :=
  match x with
  | Return a => k a
  | Raise e => Raise e
  end.

Declare Scope py_scope.
Delimit Scope py_scope with py.
Notation "'let?' x ':=' c 'in' k" := (obind c (λ x, k))
  (at level 10, x name, c at level 100, k at level 200) : py_scope.

(** *** Primitive operations on values *)

(** [bool(v)]. *)
Definition py_truthy (v : json) : bool :=
  match v with
  | JNull => false
  | JBool b => b
  | JNum n => negb (n =? 0)%Z
  | JStr s => negb (String.eqb s "")
  | JList l => match l with [] => false | _ => true end
  | JDict m => negb (bool_decide (size m = 0))
  end.

(** [v[k]] for a string subscript [k]. *)
Definition py_getitem (v : json) (k : string) : outcome json :=
  match v with
  | JDict m =>
      match m !! k with
      | Some x => Return x
      | None => Raise (KeyError k)
      end
  | JStr _ => Raise (TypeError "string indices must be integers")
  | JList _ => Raise (TypeError "list indices must be integers or slices, not str")
  | _ => Raise (TypeError "object is not subscriptable")
  end.

(** [v.get(k, default)]; only a dict has the method. *)
Definition py_get (v : json) (k : string) (default : json) : outcome json :=
  match v with
  | JDict m => Return (match m !! k with Some x => x | None => default end)
  | _ => Raise (AttributeError "object has no attribute 'get'")
  end.

(** [for x in v]: the elements a [for] loop visits.  A dict yields its keys,
    a string its characters (here its bytes), both as strings. *)
Definition py_iter (v : json) : outcome (list json) :=
  match v with
  | JList l => Return l
  | JDict m => Return ((λ kv, JStr kv.1) <$> map_to_list m)
  | JStr s => Return ((λ c, JStr (String c "")) <$> String.list_ascii_of_string s)
  | _ => Raise (TypeError "object is not iterable")
  end.

(** ** Statements: state and exceptions

    [M S A] is a statement over a state [S] that returns an [A] or raises;
    the state it leaves behind is kept in both cases. *)

Definition M (S A : Type) : Type := S → outcome A * S.

Definition ret {S A} (a : A) : M S A := λ s, (Return a, s).
Definition raise {S A} (e : exn) : M S A := λ s, (Raise e, s).
Definition lift {S A} (x : outcome A) : M S A := λ s, (x, s).
Definition bind {S A B} (c : M S A) (k : A → M S B) : M S B :=
  λ s, match c s with
       | (Return a, s') => k a s'
       | (Raise e, s') => (Raise e, s')
       end.

Notation "'let!' x ':=' c 'in' k" := (bind c (λ x, k))
  (at level 10, x name, c at level 100, k at level 200) : py_scope.
Notation "c ';;' k" := (bind c (λ _, k))
  (at level 100, k at level 200, right associativity) : py_scope.

#[local] Open Scope py_scope.

(** [try: body  except Exception as e: handler(e)]. *)
Definition try_except_Exception {S A} (body : M S A) (handler : exn → M S A) : M S A :=
  λ s, match body s with
       | (Return a, s') => (Return a, s')
       | (Raise e, s') => if is_Exception e then handler e s' else (Raise e, s')
       end.

(** [for x in xs: body(x)]. *)
Fixpoint for_each {S A} (xs : list A) (body : A → M S unit) : M S unit :=
  match xs with
  | [] => ret tt
  | x :: rest => body x ;; for_each rest body
  end.

(** ** The world the tools act on *)

(** Lines written by [print].  The text of a line is formatted from the
    values kept here:
    [MissingField k item] is [f"❌ Missing required field: {e} in {item}"]
    with [e = KeyError(k)], and [Created link] is
    [print("📅 Successfully created:", link)], where [link] is
    [created_event.get("htmlLink")] ([JNull] is Python's [None]). *)
Inductive line :=
| MissingField (key : string) (item : json)
| Created (link : json).

(** [files] maps a path to the document stored there ([json.dump] writes a
    document and [json.load] reads the same document back); [calendar] is the
    list of event bodies the remote calendar has accepted, oldest first. *)
Record world := World {
  files : gmap string json;
  stdout : list line;
  calendar : list json;
}.

Definition print (l : line) : M world unit :=
  λ w, (Return tt, World (files w) (stdout w ++ [l]) (calendar w)).

(** [os.path.exists(path)]. *)
Definition path_exists (path : string) : M world bool :=
  λ w, (Return (bool_decide (is_Some (files w !! path))), w).

(** [with open(path, "w") as f: json.dump(doc, f, ...)] (also [f.write]). *)
Definition write_json (path : string) (doc : json) : M world unit :=
  λ w, (Return tt, World (<[path := doc]> (files w)) (stdout w) (calendar w)).

(** [with open(path, "r") as f: json.load(f)]. *)
Definition read_json (path : string) : M world json :=
  λ w, match files w !! path with
       | Some doc => (Return doc, w)
       | None => (Raise (FileNotFoundError "No such file or directory"), w)
       end.

(** ** agent_tools.py: save_schedule_json *)

Definition DEFAULT_TIMEZONE : string := "Asia/Ho_Chi_Minh".
Definition NO_VALID_EVENTS : string := "❌ No valid events to save.".
Definition JSON_SAVED : string := "✅ JSON SAVED".
Definition PLAN_JSON : string := "plan.json".

(** The dict literal of lines 10-21, its entries evaluated top to bottom. *)
Definition build_event (item : json) : outcome json :=
  let? summary := py_getitem item "summary" in
  let? start := py_getitem item "start" in
  let? start_tz := py_get item "timeZone" (JStr DEFAULT_TIMEZONE) in
  let? end_ := py_getitem item "end" in
  let? end_tz := py_get item "timeZone" (JStr DEFAULT_TIMEZONE) in
  let? description := py_get item "description" (JStr "") in
  Return (dict [("summary", summary);
                ("start", dict [("dateTime", start); ("timeZone", start_tz)]);
                ("end", dict [("dateTime", end_); ("timeZone", end_tz)]);
                ("description", description)]).

(** The loop of lines 8-24: only a [KeyError] is caught. *)
Fixpoint collect_events (items : list json) (valid_events : list json) : M world (list json) :=
  match items with
  | [] => ret valid_events
  | item :: rest =>
      match build_event item with
      | Return event => collect_events rest (valid_events ++ [event])
      | Raise (KeyError k) => print (MissingField k item) ;; collect_events rest valid_events
      | Raise e => raise e
      end
  end.

Definition save_schedule_json (json_data : gmap string json) : M world string :=
  let! items := lift (py_iter (default (JList []) (json_data !! "events"))) in
  let! valid_events := collect_events items [] in
  match valid_events with
  | [] => ret NO_VALID_EVENTS
  | _ =>
      write_json PLAN_JSON (dict [("events", JList valid_events)]) ;;
      ret JSON_SAVED
  end.

(** ** google_calendar.py: create_events_from_plan

    The Google client libraries are the external collaborator.  [google]
    gathers what the code asks of them:
    [from_authorized_user_file tok] is
    [Credentials.from_authorized_user_file("token.json", SCOPES)] on a token
    file holding [tok];
    [run_local_server secrets] is
    [InstalledAppFlow.from_client_secrets_file("credentials.json", SCOPES)
     .run_local_server(port=0)], where [secrets] is the content of
    [credentials.json] when the file exists;
    [build creds] is [build("calendar", "v3", credentials=creds)];
    [insert_execute creds cal body] is
    [service.events().insert(calendarId="primary", body=body).execute()]
    against a calendar that already holds [cal]. *)

Record credentials := Credentials {
  valid : bool;
  to_json : json;
}.

Record google := Google {
  from_authorized_user_file : json → outcome credentials;
  run_local_server : option json → outcome credentials;
  build : credentials → outcome unit;
  insert_execute : credentials → list json → json → outcome json;
}.

Definition TOKEN_JSON : string := "token.json".
Definition CREDENTIALS_JSON : string := "credentials.json".
Definition NO_EVENTS_FOUND : string := "No events found in the study plan.".
Definition PLAN_SYNCED : string := "✅ Study plan has been synced to Google Calendar.".

(** Lines 15-22: reuse a stored valid token, otherwise run the consent flow
    and store the new token. *)
Definition obtain_credentials (g : google) : M world credentials :=
  let! has_token := path_exists TOKEN_JSON in
  let! creds :=
    (if has_token : bool then
       let! tok := read_json TOKEN_JSON in
       let! c := lift (from_authorized_user_file g tok) in
       ret (Some c)
     else ret None) in
  match creds with
  | Some c =>
      if valid c then ret c
      else
        let! secrets := (λ w, (Return (files w !! CREDENTIALS_JSON), w)) in
        let! c' := lift (run_local_server g secrets) in
        write_json TOKEN_JSON (to_json c') ;;
        ret c'
  | None =>
      let! secrets := (λ w, (Return (files w !! CREDENTIALS_JSON), w)) in
      let! c' := lift (run_local_server g secrets) in
      write_json TOKEN_JSON (to_json c') ;;
      ret c'
  end.

(** The dict literal of lines 27-38. *)
Definition calendar_body (event_data : json) : outcome json :=
  let? summary := py_get event_data "summary" (JStr "Study Schedule") in
  let? description := py_get event_data "description" (JStr "") in
  let? start := py_getitem event_data "start" in
  let? start_dt := py_getitem start "dateTime" in
  let? start' := py_getitem event_data "start" in
  let? start_tz := py_getitem start' "timeZone" in
  let? end_ := py_getitem event_data "end" in
  let? end_dt := py_getitem end_ "dateTime" in
  let? end' := py_getitem event_data "end" in
  let? end_tz := py_getitem end' "timeZone" in
  Return (dict [("summary", summary);
                ("description", description);
                ("start", dict [("dateTime", start_dt); ("timeZone", start_tz)]);
                ("end", dict [("dateTime", end_dt); ("timeZone", end_tz)])]).

(** One call of the remote [insert]: an accepted body joins the calendar. *)
Definition insert_event (g : google) (creds : credentials) (body : json) : M world json :=
  λ w, match insert_execute g creds (calendar w) body with
       | Return created => (Return created, World (files w) (stdout w) (calendar w ++ [body]))
       | Raise e => (Raise e, w)
       end.

Definition create_events_from_plan (g : google) (plan : json) : M world string :=
  let! events := lift (py_get plan "events" JNull) in
  if negb (py_truthy events) then raise (ValueError NO_EVENTS_FOUND)
  else
    let! creds := obtain_credentials g in
    lift (build g creds) ;;
    let! events' := lift (py_getitem plan "events") in
    let! items := lift (py_iter events') in
    for_each items (λ event_data,
      let! event := lift (calendar_body event_data) in
      let! created_event := insert_event g creds event in
      let! link := lift (py_get created_event "htmlLink" JNull) in
      print (Created link)) ;;
    ret PLAN_SYNCED.

(** ** agent_tools.py: load_schedule_json *)

Definition PLAN_NOT_FOUND : string := "❌ plan.json file not found.".
Definition SYNCED : string := "✅ Study plan synced to Google Calendar.".

Definition load_schedule_json (g : google) : M world string :=
  let! found := path_exists PLAN_JSON in
  if negb found then raise (FileNotFoundError PLAN_NOT_FOUND)
  else
    let! data := read_json PLAN_JSON in
    create_events_from_plan g data ;;
    ret SYNCED.

(** ** study_planning_team.py: the conversation runner *)

(** Attribute values of the objects the group chat yields: a [str], or any
    other object, kept by its [str()] rendering. *)
Inductive value :=
| VStr (s : string)
| VObj (rendering : string).

Definition py_str (v : value) : string :=
  match v with
  | VStr s => s
  | VObj r => r
  end.

(** An object yielded by [team.run_stream], seen through the two attributes
    the runner probes with [getattr]/[hasattr]; [None] is an absent attribute. *)
Record message := Message {
  msg_name : option value;
  msg_content : option value;
}.

(** One dict appended to [conversation_history]. *)
Record entry := Entry {
  agent : value;
  content : value;
  timestamp : string;
  entry_type : string;
}.

(** What iterating [team.run_stream(task=...)] does: it yields some objects,
    then is exhausted or raises. *)
Inductive stream_end :=
| Exhausted
| Raises (e : exn).

Record stream := Stream {
  yielded : list message;
  ending : stream_end;
}.

(** The [task] argument: a plain string, or [TextMessage(content, source)]. *)
Inductive task :=
| TaskStr (s : string)
| TaskTextMessage (content source : string).

(** A ['task_message'] event passed to [sio.emit(..., room=...)]. *)
Record emission := Emission {
  em_room : string;
  em_task_id : string;
  em_type : string;
  em_message : string;
  em_agent : option value;
}.

(** The Socket.IO service: [emit past e] is [None] when
    [sio.emit('task_message', e, room=...)] returns, and the exception it
    raises otherwise; [past] lists the events emitted before. *)
Record sink := Sink {
  emit : list emission → emission → option exn;
}.

(** The team object and what surrounds it during a run: the two attributes
    [run_conversation*] assign, the events delivered to the sink, the lines
    written with [logging.error], and how many times the clock was read. *)
Record session := Session {
  initial_message : option string;
  conversation_history : list entry;
  emitted : list emission;
  logged : list string;
  clock_reads : nat;
}.

(** The returned dict: [Finished] is the dict of the normal return (the key
    ["success"] is present only in the Socket.IO variant), [Errored] the dict
    built by the [except] clause. *)
Inductive run_result :=
| Finished (success : option bool) (history : list entry)
           (final_message : option entry) (total_messages : nat)
| Errored (error : string) (history : list entry).

Section Runner.
(** [run_stream t] is the behaviour of [self.team.run_stream(task=t, ...)],
    and [now n] the [n]-th reading of [datetime.now().isoformat()]. *)
Variable run_stream : task → stream.
Variable now : nat → string.

Definition set_initial_message (m : string) : M session unit :=
  λ s, (Return tt, Session (Some m) (conversation_history s) (emitted s) (logged s) (clock_reads s)).

Definition set_conversation_history (h : list entry) : M session unit :=
  λ s, (Return tt, Session (initial_message s) h (emitted s) (logged s) (clock_reads s)).

Definition get_conversation_history : M session (list entry) :=
  λ s, (Return (conversation_history s), s).

(** [self.conversation_history.append({...})], lines 122-127 and 156-161. *)
Definition append_entry (m : message) : M session unit :=
  λ s, (Return tt,
        Session (initial_message s)
                (conversation_history s ++
                   [Entry (default (VStr "Unknown") (msg_name m))
                          (default (VStr "") (msg_content m))
                          (now (clock_reads s))
                          "message"])
                (emitted s) (logged s) (S (clock_reads s))).

Definition logging_error (l : string) : M session unit :=
  λ s, (Return tt, Session (initial_message s) (conversation_history s)
                           (emitted s) (logged s ++ [l]) (clock_reads s)).

(** [await socketio_service.sio.emit('task_message', e, room=...)]. *)
Definition sio_emit (sk : sink) (e : emission) : M session unit :=
  λ s, match emit sk (emitted s) e with
       | None => (Return tt, Session (initial_message s) (conversation_history s)
                                     (emitted s ++ [e]) (logged s) (clock_reads s))
       | Some ex => (Raise ex, s)
       end.

(** The generator ends: exhausted, or the exception leaves the loop. *)
Definition end_of_stream (e : stream_end) : M session unit :=
  match e with
  | Exhausted => ret tt
  | Raises ex => raise ex
  end.

Definition run_conversation (user_message : string) : M session run_result :=
  try_except_Exception
    (set_initial_message user_message ;;
     set_conversation_history [] ;;
     let st := run_stream (TaskStr user_message) in
     for_each (yielded st) append_entry ;;
     end_of_stream (ending st) ;;
     let! h := get_conversation_history in
     ret (Finished None h (last h) (length h)))
    (λ e,
     let! h := get_conversation_history in
     ret (Errored (str_exn e) h)).

Definition run_conversation_with_socket
    (user_message user_sid task_id : string)
    (socketio_service : option sink) (output_stats : bool) : M session run_result :=
  try_except_Exception
    (set_initial_message user_message ;;
     set_conversation_history [] ;;
     let st := run_stream (TaskTextMessage user_message "User") in
     for_each (yielded st) (λ message,
       append_entry message ;;
       match socketio_service, msg_content message with
       | Some sk, Some c =>
           sio_emit sk (Emission user_sid task_id "stream" (py_str c)
                                 (Some (default (VStr "system") (msg_name message))))
       | _, _ => ret tt
       end) ;;
     end_of_stream (ending st) ;;
     match socketio_service with
     | Some sk =>
         sio_emit sk (Emission user_sid task_id "complete"
                               "Study planning conversation completed" None)
     | None => ret tt
     end ;;
     let! h := get_conversation_history in
     ret (Finished (Some true) h (last h) (length h)))
    (λ e,
     logging_error ("Error in study planning conversation: " ++ str_exn e)%string ;;
     match socketio_service with
     | Some sk =>
         sio_emit sk (Emission user_sid task_id "error"
                               ("Error in conversation: " ++ str_exn e)%string None)
     | None => ret tt
     end ;;
     let! h := get_conversation_history in
     ret (Errored (str_exn e) h)).

(** The history a run builds from the objects [ms], the clock having been
    read [n] times before. *)
Fixpoint entries_from (n : nat) (ms : list message) : list entry :=
  match ms with
  | [] => []
  | m :: rest =>
      Entry (default (VStr "Unknown") (msg_name m))
            (default (VStr "") (msg_content m))
            (now n) "message"
      :: entries_from (S n) rest
  end.
End Runner.

(** ** Vocabulary for the statements *)

(** The first of the three subscripted keys that a record lacks, in the order
    the dict literal of [save_schedule_json] reads them. *)
Definition first_missing (m : gmap string json) : option string :=
  match m !! "summary", m !! "start", m !! "end" with
  | None, _, _ => Some "summary"
  | Some _, None, _ => Some "start"
  | Some _, Some _, None => Some "end"
  | Some _, Some _, Some _ => None
  end.

(** The records of a plan that are kept, and the event stored for one. *)
Definition survivors (ms : list (gmap string json)) : list (gmap string json) :=
  filter (λ m, first_missing m = None) ms.

Definition event_of (m : gmap string json) : json :=
  dict [("summary", default JNull (m !! "summary"));
        ("start", dict [("dateTime", default JNull (m !! "start"));
                        ("timeZone", default (JStr DEFAULT_TIMEZONE) (m !! "timeZone"))]);
        ("end", dict [("dateTime", default JNull (m !! "end"));
                      ("timeZone", default (JStr DEFAULT_TIMEZONE) (m !! "timeZone"))]);
        ("description", default (JStr "") (m !! "description"))].

(** The warnings printed for the records of a plan that are dropped. *)
Definition warnings (ms : list (gmap string json)) : list line :=
  omap (λ m, (λ k, MissingField k (JDict m)) <$> first_missing m) ms.

(** The document [save_schedule_json] stores for the kept records [ms]. *)
Definition plan_document (ms : list (gmap string json)) : json :=
  dict [("events", JList (event_of <$> ms))].

(** The body sent to the calendar for a kept record. *)
Definition body_of (m : gmap string json) : json :=
  dict [("summary", default JNull (m !! "summary"));
        ("description", default (JStr "") (m !! "description"));
        ("start", dict [("dateTime", default JNull (m !! "start"));
                        ("timeZone", default (JStr DEFAULT_TIMEZONE) (m !! "timeZone"))]);
        ("end", dict [("dateTime", default JNull (m !! "end"));
                      ("timeZone", default (JStr DEFAULT_TIMEZONE) (m !! "timeZone"))])].

(** The plan's ["events"] entry is a list of objects [ms]; an absent entry
    is the empty list, as [json_data.get("events", [])] has it. *)
Definition events_are (json_data : gmap string json) (ms : list (gmap string json)) : Prop :=
  default (JList []) (json_data !! "events") = JList (JDict <$> ms).

(** In the world [w] the collaborator hands out credentials and a service
    handle ("a usable authenticated handle"); and a collaborator that
    accepts every insertion. *)
Definition can_authorize (g : google) (w : world) : Prop :=
  ∃ c, fst (obtain_credentials g w) = Return c ∧ build g c = Return tt.

Definition accepts_every_insert (g : google) : Prop :=
  ∀ c cal body, ∃ d, insert_execute g c cal body = Return (JDict d).

(** Structural validity of an event record in the words of the
    specification: a non-empty summary and an end timestamp strictly greater
    than the start timestamp (ISO-8601 texts of one format compare as
    strings). *)
Definition spec_structurally_valid (item : json) : bool :=
  match item with
  | JDict m =>
      match m !! "summary", m !! "start", m !! "end" with
      | Some (JStr s), Some (JStr a), Some (JStr b) => negb (String.eqb s "") && String.ltb a b
      | _, _, _ => false
      end
  | _ => false
  end.

(** A history, and a result, with the clock readings left out. *)
Definition untimed (e : entry) : value * value * string :=
  (agent e, content e, entry_type e).

Inductive untimed_result :=
| UFinished (success : option bool) (history : list (value * value * string))
            (final_message : option (value * value * string)) (total_messages : nat)
| UErrored (error : string) (history : list (value * value * string)).

Definition untimed_run (r : outcome run_result) : outcome untimed_result :=
  match r with
  | Return (Finished s h f n) => Return (UFinished s (untimed <$> h) (untimed <$> f) n)
  | Return (Errored e h) => Return (UErrored e (untimed <$> h))
  | Raise e => Raise e
  end.

(** A sink whose [emit] always returns. *)
Definition never_raises (sk : sink) : Prop := ∀ past e, emit sk past e = None.

(** ** Sample data *)

Definition plan_of (items : list (gmap string json)) : gmap string json :=
  {["events" := JList (JDict <$> items)]}.

(** The record of the planner's instructions. *)
Definition math_record : gmap string json :=
  list_to_map [("summary", JStr "Learn Math");
               ("start", JStr "2025-07-25T08:00:00");
               ("end", JStr "2025-07-25T09:30:00");
               ("timeZone", JStr "Asia/Ho_Chi_Minh");
               ("description", JStr "Review integrals")].

Definition no_summary_record : gmap string json :=
  list_to_map [("start", JStr "2025-07-26T08:00:00");
               ("end", JStr "2025-07-26T09:30:00")].

Definition no_end_record : gmap string json :=
  list_to_map [("summary", JStr "Learn Physics");
               ("start", JStr "2025-07-27T08:00:00")].

(** Only the three subscripted keys. *)
Definition bare_record : gmap string json :=
  list_to_map [("summary", JStr "Learn Chemistry");
               ("start", JStr "2025-07-28T08:00:00");
               ("end", JStr "2025-07-28T09:30:00")].

(** An empty summary, and an end before the start. *)
Definition backwards_record : gmap string json :=
  list_to_map [("summary", JStr "");
               ("start", JStr "2025-07-25T09:30:00");
               ("end", JStr "2025-07-25T08:00:00")].

Definition empty_world : world := World ∅ [] [].

(** A collaborator that has valid credentials and accepts every event. *)
Definition accepting_google : google :=
  Google (λ _, Return (Credentials true JNull))
         (λ _, Return (Credentials true JNull))
         (λ _, Return tt)
         (λ _ _ _, Return (dict [("htmlLink", JStr "https://calendar.example/event")])).

(** The ['stream'] events a run delivers for the objects [ms]: one per
    object that has a [content] attribute. *)
Definition stream_emissions (user_sid task_id : string) (ms : list message) : list emission :=
  omap (λ m, (λ c, Emission user_sid task_id "stream" (py_str c)
                            (Some (default (VStr "system") (msg_name m))))
             <$> msg_content m) ms.

(** No sink, or one whose [emit] always returns. *)
Definition quiet (socketio_service : option sink) : Prop :=
  match socketio_service with
  | Some sk => never_raises sk
  | None => True
  end.

Definition empty_session : session := Session None [] [] [] 0.

Definition sample_clock (n : nat) : string :=
  match n with
  | 0 => "2025-07-25T08:00:00.000001"
  | 1 => "2025-07-25T08:00:03.500000"
  | _ => "2025-07-25T08:00:07.250000"
  end.

Definition draft_message : message :=
  Message (Some (VStr "PlannerAgent")) (Some (VStr "Here is a draft of your week.")).

Definition reply_message : message :=
  Message (Some (VStr "User")) (Some (VStr "Looks good.")).

(** A group chat that yields two objects and stops. *)
Definition two_replies (t : task) : stream :=
  Stream [draft_message; reply_message] Exhausted.

(** A group chat whose second turn fails. *)
Definition failing_turn (t : task) : stream :=
  Stream [draft_message] (Raises (OtherException "RuntimeError" "model unavailable")).

(** A sink that cannot deliver ['stream'] events. *)
Definition failing_sink : sink :=
  Sink (λ _ e, if String.eqb (em_type e) "stream"
               then Some (OtherException "ConnectionError" "socket closed")
               else None).

(** A sink that cannot deliver anything. *)
Definition dead_sink : sink :=
  Sink (λ _ _, Some (OtherException "ConnectionError" "socket closed")).

(** ** study_planning_team.py: the rest of the class and its manager *)

(** [_get_user_input]: the input function of the user proxy.  The attribute
    [initial_message] exists only once a run has assigned it. *)
Definition _get_user_input (prompt : string) : M session string :=
  λ s, match initial_message s with
       | Some m => (Return m, s)
       | None => (Raise (AttributeError "object has no attribute 'initial_message'"), s)
       end.

(** [save_state] and [load_state] wrap the group chat's own methods, taken
    here by what one call of them does: [team_save_state] is the outcome of
    [await self.team.save_state()] and [team_load_state state] the outcome
    of [await self.team.load_state(state)].  The state threaded is the text
    written with [print]. *)
Definition save_state (team_save_state : outcome json) : M (list string) json :=
  try_except_Exception
    (lift team_save_state)
    (λ e, ret (dict [("error", JStr ("Failed to save state: " ++ str_exn e)%string)])).

Definition load_state (team_load_state : json → outcome unit) (state : json)
    : M (list string) bool :=
  try_except_Exception
    (lift (team_load_state state) ;; ret true)
    (λ e,
     (λ out, (Return tt, out ++ [("Failed to load state: " ++ str_exn e)%string])) ;;
     ret false).

(** The arguments [_create_team] passes to [SelectorGroupChat], the model
    client and the prompt text apart, and the attributes [__init__] sets, the
    agents apart. *)
Record SelectorGroupChat := {
  participants : list string;
  termination_text : string;
  allow_repeated_speaker : bool;
  chat_max_turns : nat;
}.

Record StudyPlanningTeam := {
  llm_client : string;
  max_turns : nat;
  cancelled : bool;
  team_history : list entry;
  team : SelectorGroupChat;
}.

Definition _create_team (max_turns : nat) : SelectorGroupChat :=
  {| participants := ["User"; "PlannerAgent"; "CalendarAgent"];
     termination_text := "EXIT";
     allow_repeated_speaker := true;
     chat_max_turns := max_turns |}.

(** [StudyPlanningTeam(llm_client, max_turns=5)]; [None] is an omitted
    argument. *)
Definition StudyPlanningTeam_init (llm_client : string) (max_turns : option nat)
    : StudyPlanningTeam :=
  {| llm_client := llm_client;
     max_turns := default 5 max_turns;
     cancelled := false;
     team_history := [];
     team := _create_team (default 5 max_turns) |}.

Definition cancel_conversation (self : StudyPlanningTeam) : StudyPlanningTeam :=
  {| llm_client := llm_client self;
     max_turns := max_turns self;
     cancelled := true;
     team_history := team_history self;
     team := team self |}.

(** [StudyPlanningTeamManager]: the dict [active_teams] is threaded. *)
Definition create_team (task_id llm_client : string) (max_turns : option nat)
    (active_teams : gmap string StudyPlanningTeam)
    : StudyPlanningTeam * gmap string StudyPlanningTeam :=
  let team := StudyPlanningTeam_init llm_client (Some (default 10 max_turns)) in
  (team, <[task_id := team]> active_teams).

Definition get_team (task_id : string) (active_teams : gmap string StudyPlanningTeam)
    : option StudyPlanningTeam :=
  active_teams !! task_id.

Definition remove_team (task_id : string) (active_teams : gmap string StudyPlanningTeam)
    : gmap string StudyPlanningTeam :=
  if bool_decide (is_Some (active_teams !! task_id))
  then delete task_id active_teams
  else active_teams.

Definition get_all_teams (active_teams : gmap string StudyPlanningTeam)
    : gmap string StudyPlanningTeam :=
  active_teams.

(** ** Vocabulary for the further statements *)

(** Every run of the statement [c] takes a state to one related to it by
    [R]: with [R] a preorder, a frame or a monotonicity condition. *)
Definition steps_within {S A} (R : relation S) (c : M S A) : Prop :=
  ∀ s, R s (snd (c s)).

(** The files agree outside [paths]; the calendar, and the standard output,
    of the second world extend those of the first. *)
Definition same_files_outside (paths : list string) : relation world :=
  λ w w', ∀ path, path ∉ paths → files w' !! path = files w !! path.

Definition calendar_extends : relation world :=
  λ w w', calendar w `prefix_of` calendar w'.

Definition stdout_extends : relation world :=
  λ w w', stdout w `prefix_of` stdout w'.

Definition same_initial_message : relation session :=
  λ s s', initial_message s' = initial_message s.

(** A statement writes no file outside [paths]; it only appends to the
    calendar; it only appends to the standard output. *)
Definition writes_only {A} (paths : list string) (c : M world A) : Prop :=
  steps_within (same_files_outside paths) c.

Definition calendar_grows {A} (c : M world A) : Prop :=
  steps_within calendar_extends c.

Definition stdout_grows {A} (c : M world A) : Prop :=
  steps_within stdout_extends c.

(** A statement over the session that leaves [initial_message] alone. *)
Definition keeps_initial_message {A} (c : M session A) : Prop :=
  steps_within same_initial_message c.

(** The ['complete'] and ['error'] events of the Socket.IO variant. *)
Definition complete_emission (user_sid task_id : string) : emission :=
  Emission user_sid task_id "complete" "Study planning conversation completed" None.

Definition error_emission (user_sid task_id : string) (e : exn) : emission :=
  Emission user_sid task_id "error" ("Error in conversation: " ++ str_exn e)%string None.

(** A sink whose [emit] always raises [ex]. *)
Definition always_raises (sk : sink) (ex : exn) : Prop :=
  ∀ past e, emit sk past e = Some ex.

(** A collaborator whose stored token cannot be loaded and whose consent
    flow fails. *)
Definition unauthorized_google : google :=
  Google (λ _, Raise (ValueError "malformed token"))
         (λ _, Raise (FileNotFoundError "credentials.json"))
         (λ _, Return tt)
         (λ _ _ _, Return (dict [("htmlLink", JStr "https://calendar.example/event")])).

(** A collaborator that rejects the chemistry event only. *)
Definition picky_google : google :=
  Google (λ _, Return (Credentials true JNull))
         (λ _, Return (Credentials true JNull))
         (λ _, Return tt)
         (λ _ _ body,
            match py_getitem body "summary" with
            | Return (JStr "Learn Chemistry") =>
                Raise (OtherException "HttpError" "quota exceeded")
            | _ => Return (dict [("htmlLink", JStr "https://calendar.example/event")])
            end).

(** ** Facts about the primitives *)

Lemma bind_Return {S A B} (c : M S A) (k : A → M S B) s a s' :
  c s = (Return a, s') → bind c k s = k a s'.
Proof. unfold bind. by intros ->. Qed.

Lemma bind_Raise {S A B} (c : M S A) (k : A → M S B) s e s' :
  c s = (Raise e, s') → bind c k s = (Raise e, s').
Proof. unfold bind. by intros ->. Qed.

Lemma try_except_Return {S A} (body : M S A) handler s a s' :
  body s = (Return a, s') → try_except_Exception body handler s = (Return a, s').
Proof. unfold try_except_Exception. by intros ->. Qed.

Lemma try_except_caught {S A} (body : M S A) handler s e s' :
  body s = (Raise e, s') → is_Exception e = true →
  try_except_Exception body handler s = handler e s'.
Proof. unfold try_except_Exception. by intros -> ->. Qed.

Lemma try_except_passed {S A} (body : M S A) handler s e s' :
  body s = (Raise e, s') → is_Exception e = false →
  try_except_Exception body handler s = (Raise e, s').
Proof. unfold try_except_Exception. by intros -> ->. Qed.

Lemma first_missing_None m :
  first_missing m = None ↔
  is_Some (m !! "summary") ∧ is_Some (m !! "start") ∧ is_Some (m !! "end").
Proof.
  unfold first_missing.
  destruct (m !! "summary"), (m !! "start"), (m !! "end"); split;
    try discriminate; try (intros (H1 & H2 & H3); inversion H1; inversion H2; inversion H3; discriminate);
    eauto.
Qed.

(** [build_event] on an object: the first missing key is reported, and a
    record with the three keys becomes [event_of]. *)
Lemma build_event_dict m :
  build_event (JDict m) =
  match first_missing m with
  | Some k => Raise (KeyError k)
  | None => Return (event_of m)
  end.
Proof.
  unfold build_event, first_missing, event_of; simpl.
  destruct (m !! "summary"); simpl; [|done].
  destruct (m !! "start"); simpl; [|done].
  destruct (m !! "end"); simpl; done.
Qed.

Lemma collect_events_dicts ms acc w :
  collect_events (JDict <$> ms) acc w =
  (Return (acc ++ (event_of <$> survivors ms)),
   World (files w) (stdout w ++ warnings ms) (calendar w)).
Proof.
  revert acc w. induction ms as [|m ms IH]; intros acc w.
  - simpl. unfold ret. rewrite !app_nil_r. by destruct w.
  - rewrite fmap_cons. cbn [collect_events]. rewrite build_event_dict.
    unfold survivors, warnings in *. rewrite filter_cons. cbn [omap list_omap].
    destruct (first_missing m) as [k|] eqn:Hk.
    + rewrite decide_False by discriminate. cbn.
      unfold bind, print. rewrite IH. cbn. by rewrite <- app_assoc.
    + rewrite decide_True by done. cbn.
      rewrite IH. by rewrite <- app_assoc.
Qed.

Lemma warnings_survivors_length ms :
  length (warnings ms) + length (survivors ms) = length ms.
Proof.
  unfold warnings, survivors. induction ms as [|m ms IH]; [done|].
  rewrite filter_cons. cbn [omap list_omap].
  destruct (first_missing m) as [k|] eqn:Hk.
  - rewrite decide_False by discriminate. cbn. lia.
  - rewrite decide_True by done. cbn. lia.
Qed.

Lemma elem_of_survivors m ms :
  m ∈ survivors ms ↔
  m ∈ ms ∧ is_Some (m !! "summary") ∧ is_Some (m !! "start") ∧ is_Some (m !! "end").
Proof.
  unfold survivors. rewrite list_elem_of_filter, first_missing_None. tauto.
Qed.

Lemma elem_of_warnings m k ms :
  m ∈ ms → first_missing m = Some k → MissingField k (JDict m) ∈ warnings ms.
Proof.
  intros Hin Hk. unfold warnings. apply list_elem_of_omap.
  exists m. split; [done|]. by rewrite Hk.
Qed.

(** What [save_schedule_json] does on a plan whose events are objects. *)
Lemma save_schedule_json_dicts json_data ms w :
  events_are json_data ms →
  save_schedule_json json_data w =
  match survivors ms with
  | [] => (Return NO_VALID_EVENTS,
           World (files w) (stdout w ++ warnings ms) (calendar w))
  | _ :: _ => (Return JSON_SAVED,
               World (<[PLAN_JSON := plan_document (survivors ms)]> (files w))
                     (stdout w ++ warnings ms) (calendar w))
  end.
Proof.
  unfold events_are, save_schedule_json. intros ->.
  unfold bind at 1. cbn [lift py_iter].
  unfold bind at 1. rewrite collect_events_dicts. cbn [app].
  destruct (survivors ms) as [|m' ms']; reflexivity.
Qed.

(** ** save_schedule_json: which plans are stored *)

(** C2 (as amended).  On a plan whose events are objects, the tool returns
    the no-valid-events text exactly when no record has the three required
    keys; otherwise it returns the fixed text [JSON_SAVED], stores the kept
    records under [plan.json], and prints one warning per dropped record.
    The returned text itself carries no count. *)
Theorem save_schedule_json_result json_data ms w :
  events_are json_data ms →
  (fst (save_schedule_json json_data w) = Return NO_VALID_EVENTS ↔ survivors ms = []) ∧
  (survivors ms = [] → files (snd (save_schedule_json json_data w)) = files w) ∧
  (survivors ms ≠ [] →
     fst (save_schedule_json json_data w) = Return JSON_SAVED ∧
     files (snd (save_schedule_json json_data w)) !! PLAN_JSON
       = Some (plan_document (survivors ms))) ∧
  stdout (snd (save_schedule_json json_data w)) = stdout w ++ warnings ms ∧
  length (warnings ms) = length ms - length (survivors ms).
Proof.
  intros Hev. rewrite (save_schedule_json_dicts _ _ _ Hev).
  pose proof (warnings_survivors_length ms) as Hlen.
  destruct (survivors ms) as [|m' ms'] eqn:Hs; cbn [fst snd files stdout].
  - cbn [length] in *. repeat split; try done. lia.
  - cbn [length] in *. repeat split; try done.
    + apply lookup_insert_eq.
    + lia.
Qed.

(** The boundary plan with one valid and two invalid records. *)
Lemma save_schedule_json_result_witness :
  events_are (plan_of [math_record; no_summary_record; no_end_record])
             [math_record; no_summary_record; no_end_record] ∧
  fst (save_schedule_json (plan_of [math_record; no_summary_record; no_end_record]) empty_world)
    = Return JSON_SAVED ∧
  length (warnings [math_record; no_summary_record; no_end_record]) = 2.
Proof.
  pose proof (save_schedule_json_result
                (plan_of [math_record; no_summary_record; no_end_record])
                [math_record; no_summary_record; no_end_record]
                empty_world eq_refl) as (_ & _ & Hsaved & _ & Hlen).
  split; [reflexivity|]. split.
  - apply Hsaved. vm_compute. discriminate.
  - exact Hlen.
Defined.

(** C2 (as stated) fails: a plan with two dropped records and a plan with
    none return the very same value, so the result does not tell how many
    records were dropped. *)
Lemma dropped_count_not_in_result :
  fst (save_schedule_json (plan_of [math_record; no_summary_record; no_end_record]) empty_world)
    = Return JSON_SAVED ∧
  fst (save_schedule_json (plan_of [math_record]) empty_world) = Return JSON_SAVED ∧
  length (stdout (snd (save_schedule_json
                         (plan_of [math_record; no_summary_record; no_end_record]) empty_world))) = 2 ∧
  length (stdout (snd (save_schedule_json (plan_of [math_record]) empty_world))) = 0.
Proof. vm_compute. done. Qed.

(** The boundary plan in which every record lacks its summary. *)
Example save_schedule_json_all_missing_summary :
  save_schedule_json (plan_of [no_summary_record; no_summary_record]) empty_world =
  (Return NO_VALID_EVENTS,
   World ∅ [MissingField "summary" (JDict no_summary_record);
            MissingField "summary" (JDict no_summary_record)] []).
Proof. by rewrite (save_schedule_json_dicts _ [no_summary_record; no_summary_record]). Qed.

(** C8 (as stated) fails: a record with an empty summary whose end precedes
    its start is not structurally valid in the specification's sense, yet a
    plan made of it alone is stored, the record included. *)
Lemma save_schedule_json_keeps_invalid_record :
  spec_structurally_valid (JDict backwards_record) = false ∧
  fst (save_schedule_json (plan_of [backwards_record]) empty_world) = Return JSON_SAVED ∧
  files (snd (save_schedule_json (plan_of [backwards_record]) empty_world)) !! PLAN_JSON
    = Some (dict [("events", JList [event_of backwards_record])]) ∧
  stdout (snd (save_schedule_json (plan_of [backwards_record]) empty_world)) = [].
Proof.
  rewrite (save_schedule_json_dicts _ [backwards_record]) by reflexivity.
  split; [vm_compute; reflexivity|].
  change (survivors [backwards_record]) with [backwards_record].
  cbn [fst snd files stdout]. split; [done|]. split; [|done].
  apply lookup_insert_eq.
Qed.

(** C10.  A record with [summary], [start] and [end] but no [timeZone] is
    built with the default timezone on both ends and with its description,
    or the empty string when it has none; and a plan containing it is stored
    with that event in the document. *)
Theorem build_event_defaults m s a b :
  m !! "summary" = Some s → m !! "start" = Some a → m !! "end" = Some b →
  m !! "timeZone" = None →
  build_event (JDict m) =
    Return (dict [("summary", s);
                  ("start", dict [("dateTime", a); ("timeZone", JStr "Asia/Ho_Chi_Minh")]);
                  ("end", dict [("dateTime", b); ("timeZone", JStr "Asia/Ho_Chi_Minh")]);
                  ("description", default (JStr "") (m !! "description"))]) ∧
  (m !! "description" = None →
     py_getitem (event_of m) "description" = Return (JStr "")) ∧
  (∀ json_data ms w, events_are json_data ms → m ∈ ms →
     fst (save_schedule_json json_data w) = Return JSON_SAVED ∧
     ∃ evs, files (snd (save_schedule_json json_data w)) !! PLAN_JSON
              = Some (dict [("events", JList evs)]) ∧
            dict [("summary", s);
                  ("start", dict [("dateTime", a); ("timeZone", JStr "Asia/Ho_Chi_Minh")]);
                  ("end", dict [("dateTime", b); ("timeZone", JStr "Asia/Ho_Chi_Minh")]);
                  ("description", default (JStr "") (m !! "description"))] ∈ evs).
Proof.
  intros Hs Ha Hb Htz.
  assert (Hev : event_of m =
    dict [("summary", s);
          ("start", dict [("dateTime", a); ("timeZone", JStr "Asia/Ho_Chi_Minh")]);
          ("end", dict [("dateTime", b); ("timeZone", JStr "Asia/Ho_Chi_Minh")]);
          ("description", default (JStr "") (m !! "description"))]).
  { unfold event_of. by rewrite Hs, Ha, Hb, Htz. }
  assert (Hfm : first_missing m = None).
  { unfold first_missing. by rewrite Hs, Ha, Hb. }
  split; [|split].
  - by rewrite build_event_dict, Hfm, Hev.
  - intros Hd. unfold event_of. rewrite Hd. reflexivity.
  - intros json_data ms w Hdata Hin.
    rewrite (save_schedule_json_dicts _ _ _ Hdata).
    assert (Hsurv : m ∈ survivors ms).
    { apply elem_of_survivors. rewrite Hs, Ha, Hb. eauto. }
    destruct (survivors ms) as [|m' ms'] eqn:Hsv; [by apply elem_of_nil in Hsurv|].
    cbn [fst snd files]. split; [done|].
    exists (event_of <$> (m' :: ms')). split; [apply lookup_insert_eq|].
    rewrite <- Hev. by apply list_elem_of_fmap_2.
Qed.

Lemma build_event_defaults_witness :
  build_event (JDict bare_record) =
    Return (dict [("summary", JStr "Learn Chemistry");
                  ("start", dict [("dateTime", JStr "2025-07-28T08:00:00");
                                  ("timeZone", JStr "Asia/Ho_Chi_Minh")]);
                  ("end", dict [("dateTime", JStr "2025-07-28T09:30:00");
                                ("timeZone", JStr "Asia/Ho_Chi_Minh")]);
                  ("description", JStr "")]).
Proof.
  exact (proj1 (build_event_defaults bare_record
                  (JStr "Learn Chemistry") (JStr "2025-07-28T08:00:00")
                  (JStr "2025-07-28T09:30:00") eq_refl eq_refl eq_refl eq_refl)).
Defined.

(** ** save_schedule_json on arbitrary input *)

Lemma build_event_not_dict item :
  (∀ m, item ≠ JDict m) → ∃ msg, build_event item = Raise (TypeError msg).
Proof.
  intros Hnd. destruct item; cbn; eauto. by destruct (Hnd m).
Qed.

(** The loop writes no file and touches no calendar, whatever it is fed. *)
Lemma collect_events_frame items acc w :
  files (snd (collect_events items acc w)) = files w ∧
  calendar (snd (collect_events items acc w)) = calendar w.
Proof.
  revert acc w. induction items as [|item items IH]; intros acc w; [done|].
  cbn [collect_events]. destruct (build_event item) as [ev|e]; [apply IH|].
  destruct e; try done.
  unfold bind, print.
  destruct (IH acc (World (files w) (stdout w ++ [MissingField key item]) (calendar w)))
    as [Hf Hc].
  destruct (collect_events items acc _) as [[l|e] w']; cbn in *; done.
Qed.

(** The loop returns only when every item is an object. *)
Lemma collect_events_Return items acc w l :
  fst (collect_events items acc w) = Return l → ∃ ms, items = JDict <$> ms.
Proof.
  revert acc w. induction items as [|item items IH]; intros acc w; [by exists []|].
  cbn [collect_events]. intros H.
  assert (∃ m, item = JDict m) as [m ->].
  { destruct item; eauto; cbn in H; discriminate. }
  assert (∃ ms, items = JDict <$> ms) as [ms ->]; [|by exists (m :: ms)].
  destruct (build_event (JDict m)) as [ev|e]; [by eapply IH|].
  destruct e; try discriminate.
  unfold bind, print in H.
  destruct (collect_events items acc _) as [[l'|e'] w'] eqn:Hc; [|discriminate].
  eapply (IH acc). by rewrite Hc.
Qed.

Lemma save_schedule_json_frame json_data w :
  calendar (snd (save_schedule_json json_data w)) = calendar w ∧
  (files (snd (save_schedule_json json_data w)) = files w ∨
   fst (save_schedule_json json_data w) = Return JSON_SAVED ∧
   ∃ doc, files (snd (save_schedule_json json_data w)) = <[PLAN_JSON := doc]> (files w)).
Proof.
  unfold save_schedule_json, bind, lift.
  destruct (py_iter _) as [items|e]; [|by split; [|left]].
  destruct (collect_events_frame items [] w) as [Hf Hc].
  destruct (collect_events items [] w) as [[l|e] w']; cbn [fst snd] in *; [|by split; [|left]].
  destruct l as [|ev l]; [by split; [|left]|].
  cbn. split; [done|]. right. rewrite Hf. eauto.
Qed.

(** The tool reports success only for a plan whose events are objects, one
    of which at least has the three keys. *)
Lemma save_schedule_json_saved_inv json_data w :
  fst (save_schedule_json json_data w) = Return JSON_SAVED →
  ∃ ms, events_are json_data ms ∧ survivors ms ≠ [].
Proof.
  intros H.
  assert (∃ ms, events_are json_data ms) as [ms Hms].
  { unfold save_schedule_json, events_are in *. unfold bind at 1 in H. unfold lift in H.
    destruct (default (JList []) (json_data !! "events")) as [| | |s|l|m]; cbn [py_iter] in H;
      try discriminate.
    - unfold bind at 1 in H.
      destruct (collect_events _ [] w) as [[l|e] w'] eqn:Hc; [|discriminate].
      pose proof (f_equal fst Hc) as Hr. apply collect_events_Return in Hr as [ms Hms].
      destruct (String.list_ascii_of_string s), ms; try discriminate.
      cbn in Hc. injection Hc as <- <-. discriminate.
    - unfold bind at 1 in H.
      destruct (collect_events l [] w) as [[l'|e] w'] eqn:Hc; [|discriminate].
      pose proof (f_equal fst Hc) as Hr. apply collect_events_Return in Hr as [ms ->]. eauto.
    - unfold bind at 1 in H.
      destruct (collect_events _ [] w) as [[l|e] w'] eqn:Hc; [|discriminate].
      pose proof (f_equal fst Hc) as Hr. apply collect_events_Return in Hr as [ms Hms].
      destruct (map_to_list m), ms; try discriminate.
      cbn in Hc. injection Hc as <- <-. discriminate. }
  exists ms. split; [done|].
  rewrite (save_schedule_json_dicts _ _ _ Hms) in H.
  by destruct (survivors ms).
Qed.

(** C8 (as amended).  The tool stores a plan exactly when its events are
    objects of which one at least has the keys [summary], [start] and [end],
    whatever their values; in every other case the files are left as they
    were.  For a plan whose events are objects, the stored document holds the
    records that have the three keys, in order, and every record lacking one
    is dropped with a warning naming the first key it lacks. *)
Theorem save_schedule_json_persists_iff json_data w :
  (fst (save_schedule_json json_data w) = Return JSON_SAVED ↔
     ∃ ms, events_are json_data ms ∧
       ∃ m, m ∈ ms ∧ is_Some (m !! "summary") ∧ is_Some (m !! "start") ∧ is_Some (m !! "end")) ∧
  (fst (save_schedule_json json_data w) ≠ Return JSON_SAVED →
     files (snd (save_schedule_json json_data w)) = files w) ∧
  (∀ ms, events_are json_data ms →
     (fst (save_schedule_json json_data w) = Return JSON_SAVED →
        files (snd (save_schedule_json json_data w)) !! PLAN_JSON
          = Some (plan_document (survivors ms))) ∧
     (∀ m, m ∈ survivors ms ↔
           m ∈ ms ∧ is_Some (m !! "summary") ∧ is_Some (m !! "start") ∧ is_Some (m !! "end")) ∧
     stdout (snd (save_schedule_json json_data w)) = stdout w ++ warnings ms ∧
     (∀ m k, m ∈ ms → first_missing m = Some k → MissingField k (JDict m) ∈ warnings ms)).
Proof.
  split; [|split].
  - split.
    + intros H. destruct (save_schedule_json_saved_inv _ _ H) as (ms & Hms & Hne).
      exists ms. split; [done|].
      destruct (survivors ms) as [|m ms'] eqn:Hs; [done|].
      exists m. apply elem_of_survivors. rewrite Hs. apply list_elem_of_here.
    + intros (ms & Hms & m & Hm). apply elem_of_survivors in Hm.
      rewrite (save_schedule_json_dicts _ _ _ Hms).
      destruct (survivors ms); [by apply elem_of_nil in Hm|done].
  - intros Hne. by destruct (save_schedule_json_frame json_data w) as [_ [?|[? _]]].
  - intros ms Hms. rewrite (save_schedule_json_dicts _ _ _ Hms).
    split; [|split; [|split]].
    + destruct (survivors ms) as [|m' ms']; cbn [fst snd files]; [intros [=]|].
      intros _. apply lookup_insert_eq.
    + intros m. apply elem_of_survivors.
    + by destruct (survivors ms).
    + intros m k. apply elem_of_warnings.
Qed.

Lemma save_schedule_json_persists_iff_witness :
  files (snd (save_schedule_json (plan_of [no_end_record; bare_record]) empty_world)) !! PLAN_JSON
    = Some (plan_document [bare_record]) ∧
  stdout (snd (save_schedule_json (plan_of [no_end_record; bare_record]) empty_world))
    = [MissingField "end" (JDict no_end_record)].
Proof.
  pose proof (save_schedule_json_persists_iff
                (plan_of [no_end_record; bare_record]) empty_world) as (Hiff & _ & Hall).
  destruct (Hall [no_end_record; bare_record] eq_refl) as (Hdoc & _ & Hout & _).
  split; [|exact Hout].
  apply Hdoc, Hiff. exists [no_end_record; bare_record]. split; [reflexivity|].
  exists bare_record. split; [apply list_elem_of_further, list_elem_of_here|].
  split; [|split]; eexists; reflexivity.
Defined.

(** ** load_schedule_json and create_events_from_plan *)

Lemma load_schedule_json_no_plan g w :
  files w !! PLAN_JSON = None →
  load_schedule_json g w = (Raise (FileNotFoundError PLAN_NOT_FOUND), w).
Proof.
  intros Hno. unfold load_schedule_json, bind, path_exists. rewrite Hno.
  rewrite bool_decide_false by (by intros [? ?]). reflexivity.
Qed.

(** Obtaining credentials writes at most [token.json], prints nothing and
    inserts nothing; whether it succeeds depends on [token.json] and
    [credentials.json] alone. *)
Lemma obtain_credentials_frame g w :
  stdout (snd (obtain_credentials g w)) = stdout w ∧
  calendar (snd (obtain_credentials g w)) = calendar w ∧
  ∀ path, path ≠ TOKEN_JSON →
    files (snd (obtain_credentials g w)) !! path = files w !! path.
Proof.
  unfold obtain_credentials, bind, path_exists, read_json, lift, write_json, ret.
  destruct (files w !! TOKEN_JSON) as [tok|] eqn:Ht.
  - rewrite bool_decide_true by eauto. rewrite Ht.
    destruct (from_authorized_user_file g tok) as [c|e]; cbn; [|done].
    destruct (valid c); cbn; [done|].
    destruct (run_local_server g _) as [c'|e]; cbn; [|done].
    repeat split. intros path Hp. by rewrite lookup_insert_ne.
  - rewrite bool_decide_false by (by intros [? ?]). cbn.
    destruct (run_local_server g _) as [c'|e]; cbn; [|done].
    repeat split. intros path Hp. by rewrite lookup_insert_ne.
Qed.

Lemma obtain_credentials_ext g w w' :
  files w !! TOKEN_JSON = files w' !! TOKEN_JSON →
  files w !! CREDENTIALS_JSON = files w' !! CREDENTIALS_JSON →
  fst (obtain_credentials g w) = fst (obtain_credentials g w').
Proof.
  intros Ht Hc.
  unfold obtain_credentials, bind, path_exists, read_json, lift, write_json, ret.
  rewrite <- Ht.
  destruct (files w !! TOKEN_JSON) as [tok|] eqn:Hw.
  - rewrite !bool_decide_true by eauto. rewrite <- Ht, Hw.
    destruct (from_authorized_user_file g tok) as [c|e]; cbn; [|done].
    destruct (valid c); cbn; [done|]. rewrite <- Hc.
    by destruct (run_local_server g _).
  - rewrite !bool_decide_false by (by intros [? ?]). cbn. rewrite <- Hc.
    by destruct (run_local_server g _).
Qed.

Lemma can_authorize_ext g w w' :
  files w !! TOKEN_JSON = files w' !! TOKEN_JSON →
  files w !! CREDENTIALS_JSON = files w' !! CREDENTIALS_JSON →
  can_authorize g w → can_authorize g w'.
Proof.
  intros Ht Hc (c & Hr & Hb). exists c.
  by rewrite <- (obtain_credentials_ext g w w' Ht Hc).
Qed.

Lemma can_authorize_run g w :
  can_authorize g w →
  ∃ c fs, obtain_credentials g w = (Return c, World fs (stdout w) (calendar w)) ∧
          fs !! PLAN_JSON = files w !! PLAN_JSON ∧ build g c = Return tt.
Proof.
  intros (c & Hr & Hb).
  destruct (obtain_credentials_frame g w) as (Ho & Hc & Hf).
  destruct (obtain_credentials g w) as [r [fs out cal]]. cbn in *. subst.
  exists c, fs. split; [done|]. split; [by apply Hf|done].
Qed.

(** The body sent for a stored event is [body_of] of its record. *)
Lemma calendar_body_event_of m : calendar_body (event_of m) = Return (body_of m).
Proof. reflexivity. Qed.

(** The insertion loop over stored events, against a collaborator that
    accepts every insertion: one body per event joins the calendar, in
    order, and one line per event is printed. *)
Lemma insert_loop_accepts g c ms w :
  accepts_every_insert g →
  ∃ out,
    for_each (event_of <$> ms) (λ event_data,
      let! event := lift (calendar_body event_data) in
      let! created_event := insert_event g c event in
      let! link := lift (py_get created_event "htmlLink" JNull) in
      print (Created link)) w
    = (Return tt, World (files w) (stdout w ++ out) (calendar w ++ (body_of <$> ms))) ∧
    length out = length ms.
Proof.
  intros Hacc. revert w. induction ms as [|m ms IH]; intros w.
  - exists []. cbn. unfold ret. rewrite !app_nil_r. by destruct w.
  - rewrite fmap_cons. cbn [for_each].
    unfold bind at 1. unfold bind at 1. rewrite calendar_body_event_of. unfold lift at 1.
    unfold bind at 1. unfold insert_event at 1.
    destruct (Hacc c (calendar w) (body_of m)) as [d ->].
    unfold bind at 1. cbn [lift py_get]. unfold print at 1.
    cbn [files stdout calendar].
    match goal with |- context [Created ?l] => set (ln := Created l) end.
    destruct (IH (World (files w) (stdout w ++ [ln]) (calendar w ++ [body_of m])))
      as (out & -> & Hlen).
    exists (ln :: out). cbn [files stdout calendar fmap list_fmap length].
    rewrite <- !app_assoc. cbn. by rewrite Hlen.
Qed.

Lemma create_events_from_plan_document g ms w :
  can_authorize g w → accepts_every_insert g → ms ≠ [] →
  ∃ fs out,
    create_events_from_plan g (plan_document ms) w
    = (Return PLAN_SYNCED, World fs (stdout w ++ out) (calendar w ++ (body_of <$> ms))) ∧
    fs !! PLAN_JSON = files w !! PLAN_JSON ∧
    length out = length ms.
Proof.
  intros Hus Hacc Hne.
  destruct (can_authorize_run g w Hus) as (c & fs & Hcreds & Hfs & Hbuild).
  destruct (insert_loop_accepts g c ms (World fs (stdout w) (calendar w)) Hacc)
    as (out & Hloop & Hlen).
  exists fs, out. split; [|done].
  unfold create_events_from_plan.
  rewrite (bind_Return _ _ w (JList (event_of <$> ms)) w) by reflexivity.
  replace (py_truthy (JList (event_of <$> ms))) with true by (by destruct ms).
  cbn [negb].
  rewrite (bind_Return _ _ _ _ _ Hcreds).
  erewrite bind_Return by (unfold lift; rewrite Hbuild; reflexivity).
  erewrite bind_Return by reflexivity.
  erewrite bind_Return by reflexivity.
  erewrite bind_Return by exact Hloop.
  reflexivity.
Qed.

(** Syncing a slot that holds the stored document of the records [ms]. *)
Lemma load_schedule_json_slot g ms w :
  can_authorize g w → accepts_every_insert g →
  files w !! PLAN_JSON = Some (plan_document ms) → ms ≠ [] →
  ∃ fs out,
    load_schedule_json g w
    = (Return SYNCED, World fs (stdout w ++ out) (calendar w ++ (body_of <$> ms))) ∧
    fs !! PLAN_JSON = Some (plan_document ms) ∧
    length out = length ms.
Proof.
  intros Hus Hacc Hslot Hne.
  destruct (create_events_from_plan_document g ms w Hus Hacc Hne)
    as (fs & out & Hcreate & Hfs & Hlen).
  exists fs, out. split; [|by rewrite Hfs].
  unfold load_schedule_json.
  erewrite bind_Return
    by (unfold path_exists; rewrite bool_decide_true by (rewrite Hslot; eauto); reflexivity).
  cbn [negb].
  erewrite bind_Return by (unfold read_json; rewrite Hslot; reflexivity).
  erewrite bind_Return by exact Hcreate.
  reflexivity.
Qed.

(** The stored document has the single field [events]; a stored event has
    the fields [summary], [start], [end] and [description], its [start] and
    [end] being a [dateTime]/[timeZone] pair. *)
Lemma plan_document_format ms :
  ∃ d, plan_document ms = JDict d ∧ dom d = {["events"]} ∧
       d !! "events" = Some (JList (event_of <$> ms)).
Proof.
  eexists. split; [reflexivity|]. split; [|reflexivity].
  cbn [list_to_map foldr]. rewrite insert_empty. apply dom_singleton_L.
Qed.

Lemma event_of_format m :
  ∃ d ds de, event_of m = JDict d ∧
    dom d = {["summary"; "start"; "end"; "description"]} ∧
    d !! "start" = Some (JDict ds) ∧ dom ds = {["dateTime"; "timeZone"]} ∧
    d !! "end" = Some (JDict de) ∧ dom de = {["dateTime"; "timeZone"]}.
Proof.
  unfold event_of, dict. do 3 eexists. split; [reflexivity|].
  split; [|split; [reflexivity|split; [|split; [reflexivity|]]]].
  all: cbn [list_to_map foldr uncurry]; rewrite ?dom_insert_L, dom_empty_L; set_solver.
Qed.

(** C3 (as amended).  With no [plan.json], [load_schedule_json] raises
    [FileNotFoundError] with the plan-not-found text instead of returning a
    value; it leaves the world as it was and calls no collaborator. *)
Theorem load_schedule_json_plan_not_found g w :
  files w !! PLAN_JSON = None →
  load_schedule_json g w = (Raise (FileNotFoundError PLAN_NOT_FOUND), w) ∧
  ∀ s, fst (load_schedule_json g w) ≠ Return s.
Proof.
  intros Hno. rewrite (load_schedule_json_no_plan g w Hno). split; [done|]. by intros s.
Qed.

Lemma load_schedule_json_plan_not_found_witness :
  load_schedule_json accepting_google empty_world
  = (Raise (FileNotFoundError "❌ plan.json file not found."), empty_world).
Proof.
  exact (proj1 (load_schedule_json_plan_not_found accepting_google empty_world eq_refl)).
Defined.

(** C3 (as stated) fails: with nothing stored, the tool does not return a
    result value at all, it raises. *)
Lemma load_schedule_json_raises_without_plan :
  (¬ ∃ s, fst (load_schedule_json accepting_google empty_world) = Return s) ∧
  fst (load_schedule_json accepting_google empty_world)
    = Raise (FileNotFoundError PLAN_NOT_FOUND).
Proof.
  rewrite (load_schedule_json_no_plan accepting_google empty_world) by reflexivity.
  split; [by intros [s ?]|done].
Qed.

(** A record that is structurally valid in the specification's sense has
    the three keys, so a plan made of such records loses none of them. *)
Lemma spec_structurally_valid_first_missing m :
  spec_structurally_valid (JDict m) = true → first_missing m = None.
Proof.
  unfold spec_structurally_valid, first_missing.
  destruct (m !! "summary") as [[]|], (m !! "start") as [[]|], (m !! "end") as [[]|];
    done.
Qed.

Lemma survivors_spec_valid ms :
  Forall (λ m, spec_structurally_valid (JDict m) = true) ms → survivors ms = ms.
Proof.
  unfold survivors. induction 1 as [|m ms Hm _ IH]; [done|].
  rewrite filter_cons, decide_True by by apply spec_structurally_valid_first_missing.
  by rewrite IH.
Qed.

(** C4.  Round trip: a plan whose events are objects, [N >= 1] of which have
    the three keys, is stored as the document of those [N] records; reading
    the slot gives that very document; and syncing against a collaborator
    that authorizes and accepts every insertion returns the synced text after
    exactly [N] insertions, one per stored event, in order.  A plan made of
    records that are valid in the specification's sense keeps all of them. *)
Theorem save_then_load_round_trip g json_data ms w :
  can_authorize g w → accepts_every_insert g →
  events_are json_data ms → survivors ms ≠ [] →
  (Forall (λ m, spec_structurally_valid (JDict m) = true) ms → survivors ms = ms) ∧
  fst (save_schedule_json json_data w) = Return JSON_SAVED ∧
  read_json PLAN_JSON (snd (save_schedule_json json_data w))
    = (Return (plan_document (survivors ms)), snd (save_schedule_json json_data w)) ∧
  fst (load_schedule_json g (snd (save_schedule_json json_data w))) = Return SYNCED ∧
  calendar (snd (load_schedule_json g (snd (save_schedule_json json_data w))))
    = calendar w ++ (body_of <$> survivors ms) ∧
  length (calendar (snd (load_schedule_json g (snd (save_schedule_json json_data w)))))
    = length (calendar w) + length (survivors ms).
Proof.
  intros Hus Hacc Hev Hne.
  split; [apply survivors_spec_valid|].
  rewrite (save_schedule_json_dicts _ _ _ Hev).
  destruct (survivors ms) as [|m' ms'] eqn:Hs; [done|]. cbn [fst snd].
  set (w1 := World _ _ _).
  assert (Hslot : files w1 !! PLAN_JSON = Some (plan_document (m' :: ms')))
    by apply lookup_insert_eq.
  assert (Hus1 : can_authorize g w1)
    by (eapply can_authorize_ext; [| |exact Hus]; symmetry; by apply lookup_insert_ne).
  destruct (load_schedule_json_slot g (m' :: ms') w1 Hus1 Hacc Hslot Hne)
    as (fs & out & -> & _ & _).
  cbn [fst snd calendar]. split; [done|]. split.
  - unfold read_json. by rewrite Hslot.
  - split; [done|]. split; [done|].
    rewrite length_app, length_fmap. done.
Qed.

(** C5.  Whatever was stored before, storing a valid plan and storing it
    again leaves the slot holding the document of that plan alone, both
    calls succeeding; a sync performed afterwards creates the events of that
    plan and nothing else. *)
Theorem save_schedule_json_last_write_wins g d1 d2 ms w :
  can_authorize g w → accepts_every_insert g →
  events_are d2 ms → survivors ms ≠ [] →
  fst (save_schedule_json d2 (snd (save_schedule_json d1 w))) = Return JSON_SAVED ∧
  fst (save_schedule_json d2 (snd (save_schedule_json d2 (snd (save_schedule_json d1 w)))))
    = Return JSON_SAVED ∧
  files (snd (save_schedule_json d2 (snd (save_schedule_json d1 w))))
    = <[PLAN_JSON := plan_document (survivors ms)]> (files w) ∧
  files (snd (save_schedule_json d2 (snd (save_schedule_json d2 (snd (save_schedule_json d1 w))))))
    = files (snd (save_schedule_json d2 (snd (save_schedule_json d1 w)))) ∧
  fst (load_schedule_json g
         (snd (save_schedule_json d2 (snd (save_schedule_json d2 (snd (save_schedule_json d1 w)))))))
    = Return SYNCED ∧
  calendar (snd (load_schedule_json g
         (snd (save_schedule_json d2 (snd (save_schedule_json d2 (snd (save_schedule_json d1 w))))))))
    = calendar w ++ (body_of <$> survivors ms).
Proof.
  intros Hus Hacc Hev Hne.
  destruct (save_schedule_json_frame d1 w) as [Hcal1 Hfiles1].
  destruct (save_schedule_json d1 w) as [r1 w1]. cbn [fst snd] in *.
  rewrite !(save_schedule_json_dicts d2 ms) by done.
  destruct (survivors ms) as [|m' ms'] eqn:Hs; [done|]. cbn [fst snd files stdout calendar].
  assert (Hw2 : <[PLAN_JSON := plan_document (m' :: ms')]> (files w1)
                = <[PLAN_JSON := plan_document (m' :: ms')]> (files w)).
  { destruct Hfiles1 as [->|[_ [doc ->]]]; [done|]. apply insert_insert_eq. }
  rewrite insert_insert_eq, Hw2.
  match goal with |- context [load_schedule_json g ?x] => set (w3 := x) end.
  assert (Hslot : files w3 !! PLAN_JSON = Some (plan_document (m' :: ms')))
    by apply lookup_insert_eq.
  assert (Hus3 : can_authorize g w3)
    by (eapply can_authorize_ext; [| |exact Hus]; symmetry; by apply lookup_insert_ne).
  destruct (load_schedule_json_slot g (m' :: ms') w3 Hus3 Hacc Hslot Hne)
    as (fs & out & -> & _ & _).
  cbn [fst snd calendar]. subst w3. cbn [calendar]. by rewrite Hcal1.
Qed.

Lemma save_then_load_round_trip_witness :
  fst (load_schedule_json accepting_google
         (snd (save_schedule_json (plan_of [math_record; no_summary_record; bare_record])
                                  empty_world)))
    = Return SYNCED ∧
  calendar (snd (load_schedule_json accepting_google
         (snd (save_schedule_json (plan_of [math_record; no_summary_record; bare_record])
                                  empty_world))))
    = [body_of math_record; body_of bare_record].
Proof.
  assert (Hus : can_authorize accepting_google empty_world)
    by (eexists; split; reflexivity).
  assert (Hacc : accepts_every_insert accepting_google)
    by (intros c cal body; eexists; reflexivity).
  assert (Hne : survivors [math_record; no_summary_record; bare_record] ≠ [])
    by (vm_compute; discriminate).
  pose proof (save_then_load_round_trip accepting_google
                (plan_of [math_record; no_summary_record; bare_record])
                [math_record; no_summary_record; bare_record]
                empty_world Hus Hacc eq_refl Hne) as (_ & _ & _ & Hsync & Hcal & _).
  split; [exact Hsync | exact Hcal].
Defined.

Lemma save_schedule_json_last_write_wins_witness :
  files (snd (save_schedule_json (plan_of [bare_record])
           (snd (save_schedule_json (plan_of [bare_record])
              (snd (save_schedule_json (plan_of [math_record]) empty_world))))))
    = {[PLAN_JSON := plan_document [bare_record]]} ∧
  calendar (snd (load_schedule_json accepting_google
     (snd (save_schedule_json (plan_of [bare_record])
        (snd (save_schedule_json (plan_of [bare_record])
           (snd (save_schedule_json (plan_of [math_record]) empty_world))))))))
    = [body_of bare_record].
Proof.
  assert (Hus : can_authorize accepting_google empty_world)
    by (eexists; split; reflexivity).
  assert (Hacc : accepts_every_insert accepting_google)
    by (intros c cal body; eexists; reflexivity).
  assert (Hne : survivors [bare_record] ≠ []) by (vm_compute; discriminate).
  pose proof (save_schedule_json_last_write_wins accepting_google
                (plan_of [math_record]) (plan_of [bare_record]) [bare_record]
                empty_world Hus Hacc eq_refl Hne) as (_ & _ & Hf2 & Hf3 & _ & Hcal).
  split; [|exact Hcal].
  rewrite Hf3, Hf2. reflexivity.
Defined.

(** ** The conversation runner *)

Section RunnerFacts.
Variable run_stream : task → stream.
Variable now : nat → string.

Lemma for_each_append_entry ms s :
  for_each ms (append_entry now) s =
  (Return tt,
   Session (initial_message s)
           (conversation_history s ++ entries_from now (clock_reads s) ms)
           (emitted s) (logged s) (clock_reads s + length ms)).
Proof.
  revert s. induction ms as [|m ms IH]; intros s.
  - cbn. unfold ret. rewrite app_nil_r, Nat.add_0_r. by destruct s.
  - cbn [for_each]. erewrite bind_Return by reflexivity.
    rewrite IH. cbn. rewrite <- app_assoc. do 2 f_equal. lia.
Qed.

(** One turn of the loop of the Socket.IO variant with a quiet sink (or
    none), then the whole loop. *)
Lemma stream_turn_quiet user_sid task_id socketio_service m s :
  quiet socketio_service →
  (append_entry now m ;;
   match socketio_service, msg_content m with
   | Some sk, Some c =>
       sio_emit sk (Emission user_sid task_id "stream" (py_str c)
                             (Some (default (VStr "system") (msg_name m))))
   | _, _ => ret tt
   end) s =
  (Return tt,
   Session (initial_message s)
           (conversation_history s ++ entries_from now (clock_reads s) [m])
           (emitted s ++ match socketio_service with
                         | Some _ => stream_emissions user_sid task_id [m]
                         | None => []
                         end)
           (logged s) (S (clock_reads s))).
Proof.
  intros Hq. unfold bind, append_entry, stream_emissions. cbn [omap list_omap entries_from].
  destruct socketio_service as [sk|], (msg_content m) as [c|]; cbn;
    unfold sio_emit, ret; rewrite ?(Hq _ _); cbn; by rewrite ?app_nil_r.
Qed.

Lemma stream_emissions_cons user_sid task_id m ms :
  stream_emissions user_sid task_id (m :: ms)
  = stream_emissions user_sid task_id [m] ++ stream_emissions user_sid task_id ms.
Proof.
  unfold stream_emissions. cbn [omap list_omap]. by destruct (_ <$> msg_content m).
Qed.

Lemma for_each_stream_quiet user_sid task_id socketio_service ms s :
  quiet socketio_service →
  for_each ms (λ message,
     append_entry now message ;;
     match socketio_service, msg_content message with
     | Some sk, Some c =>
         sio_emit sk (Emission user_sid task_id "stream" (py_str c)
                               (Some (default (VStr "system") (msg_name message))))
     | _, _ => ret tt
     end) s =
  (Return tt,
   Session (initial_message s)
           (conversation_history s ++ entries_from now (clock_reads s) ms)
           (emitted s ++ match socketio_service with
                         | Some _ => stream_emissions user_sid task_id ms
                         | None => []
                         end)
           (logged s) (clock_reads s + length ms)).
Proof.
  intros Hq. revert s. induction ms as [|m ms IH]; intros s.
  - cbn. unfold ret. rewrite app_nil_r, Nat.add_0_r.
    destruct socketio_service; cbn; rewrite app_nil_r; by destruct s.
  - cbn [for_each].
    erewrite bind_Return by (by apply stream_turn_quiet).
    rewrite IH.
    cbn [conversation_history emitted initial_message logged clock_reads entries_from length].
    rewrite <- !app_assoc. cbn [app].
    replace (S (clock_reads s) + length ms) with (clock_reads s + S (length ms)) by lia.
    rewrite (stream_emissions_cons user_sid task_id m ms).
    destruct socketio_service; cbn [app]; by rewrite ?app_nil_r.
Qed.

(** What [run_conversation] returns, by the way the stream ends. *)
Lemma run_conversation_outcome user_message ms fin s :
  run_stream (TaskStr user_message) = Stream ms fin →
  run_conversation run_stream now user_message s =
  (match fin with
   | Exhausted =>
       Return (Finished None (entries_from now (clock_reads s) ms)
                        (last (entries_from now (clock_reads s) ms))
                        (length (entries_from now (clock_reads s) ms)))
   | Raises e =>
       if is_Exception e
       then Return (Errored (str_exn e) (entries_from now (clock_reads s) ms))
       else Raise e
   end,
   Session (Some user_message) (entries_from now (clock_reads s) ms)
           (emitted s) (logged s) (clock_reads s + length ms)).
Proof.
  intros Hst. unfold run_conversation. rewrite Hst. cbv zeta. cbn [yielded ending].
  destruct fin as [|e]; [|destruct (is_Exception e) eqn:He].
  - erewrite try_except_Return; [reflexivity|].
    do 2 erewrite bind_Return by reflexivity.
    erewrite bind_Return by apply for_each_append_entry.
    reflexivity.
  - erewrite try_except_caught; [| |exact He]; cycle 1.
    { do 2 erewrite bind_Return by reflexivity.
      erewrite bind_Return by apply for_each_append_entry.
      reflexivity. }
    reflexivity.
  - erewrite try_except_passed; [| |exact He]; cycle 1.
    { do 2 erewrite bind_Return by reflexivity.
      erewrite bind_Return by apply for_each_append_entry.
      reflexivity. }
    reflexivity.
Qed.

(** What [run_conversation_with_socket] returns with a quiet sink, or
    none: the result and the history do not depend on the sink. *)
Lemma run_conversation_with_socket_quiet
    user_message user_sid task_id socketio_service output_stats ms fin s :
  run_stream (TaskTextMessage user_message "User") = Stream ms fin →
  quiet socketio_service →
  fst (run_conversation_with_socket run_stream now user_message user_sid task_id
         socketio_service output_stats s) =
    match fin with
    | Exhausted =>
        Return (Finished (Some true) (entries_from now (clock_reads s) ms)
                         (last (entries_from now (clock_reads s) ms))
                         (length (entries_from now (clock_reads s) ms)))
    | Raises e =>
        if is_Exception e
        then Return (Errored (str_exn e) (entries_from now (clock_reads s) ms))
        else Raise e
    end ∧
  conversation_history
    (snd (run_conversation_with_socket run_stream now user_message user_sid task_id
            socketio_service output_stats s))
    = entries_from now (clock_reads s) ms.
Proof.
  intros Hst Hq. unfold run_conversation_with_socket. rewrite Hst. cbv zeta.
  cbn [yielded ending].
  destruct fin as [|e]; [|destruct (is_Exception e) eqn:He].
  - destruct socketio_service as [sk|].
    + erewrite try_except_Return; cycle 1.
      { do 2 erewrite bind_Return by reflexivity.
        erewrite bind_Return by (by apply (for_each_stream_quiet user_sid task_id (Some sk))).
        erewrite bind_Return by reflexivity.
        erewrite bind_Return by (unfold sio_emit; rewrite (Hq _ _); reflexivity).
        reflexivity. }
      split; reflexivity.
    + erewrite try_except_Return; cycle 1.
      { do 2 erewrite bind_Return by reflexivity.
        erewrite bind_Return by (by apply (for_each_stream_quiet user_sid task_id None)).
        reflexivity. }
      split; reflexivity.
  - erewrite try_except_caught; [| |exact He]; cycle 1.
    { do 2 erewrite bind_Return by reflexivity.
      erewrite bind_Return by (by apply for_each_stream_quiet).
      reflexivity. }
    erewrite bind_Return by reflexivity.
    destruct socketio_service as [sk|].
    + erewrite bind_Return by (unfold sio_emit; rewrite (Hq _ _); reflexivity).
      split; reflexivity.
    + split; reflexivity.
  - erewrite try_except_passed; [| |exact He]; cycle 1.
    { do 2 erewrite bind_Return by reflexivity.
      erewrite bind_Return by (by apply for_each_stream_quiet).
      reflexivity. }
    split; reflexivity.
Qed.

Lemma untimed_entries_from now' n n' ms :
  untimed <$> entries_from now n ms = untimed <$> entries_from now' n' ms.
Proof.
  revert n n'. induction ms as [|m ms IH]; intros n n'; [done|].
  cbn. f_equal. apply IH.
Qed.
End RunnerFacts.

Lemma entries_from_length now n ms : length (entries_from now n ms) = length ms.
Proof. revert n. induction ms as [|m ms IH]; intros n; cbn; [done|]. by rewrite IH. Qed.

(** C7.  When the group chat raises an [Exception] after yielding the
    objects [ms], [run_conversation] returns (it does not raise) the error
    dict holding [str(e)] and the history of exactly those objects, one entry
    each in order, and stops there; the Socket.IO variant does the same when
    it has no sink or a sink whose [emit] returns. *)
Theorem run_conversation_captures_error run_stream now user_message ms e s :
  is_Exception e = true →
  (run_stream (TaskStr user_message) = Stream ms (Raises e) →
     run_conversation run_stream now user_message s =
       (Return (Errored (str_exn e) (entries_from now (clock_reads s) ms)),
        Session (Some user_message) (entries_from now (clock_reads s) ms)
                (emitted s) (logged s) (clock_reads s + length ms))) ∧
  (∀ user_sid task_id socketio_service output_stats,
     run_stream (TaskTextMessage user_message "User") = Stream ms (Raises e) →
     quiet socketio_service →
     fst (run_conversation_with_socket run_stream now user_message user_sid task_id
            socketio_service output_stats s)
       = Return (Errored (str_exn e) (entries_from now (clock_reads s) ms)) ∧
     conversation_history
       (snd (run_conversation_with_socket run_stream now user_message user_sid task_id
               socketio_service output_stats s))
       = entries_from now (clock_reads s) ms) ∧
  length (entries_from now (clock_reads s) ms) = length ms.
Proof.
  intros He. split; [|split].
  - intros Hst. rewrite (run_conversation_outcome _ _ _ _ _ _ Hst). by rewrite He.
  - intros user_sid task_id socketio_service output_stats Hst Hq.
    destruct (run_conversation_with_socket_quiet run_stream now user_message user_sid
                task_id socketio_service output_stats ms (Raises e) s Hst Hq) as [Hr Hh].
    rewrite Hr, Hh, He. done.
  - apply entries_from_length.
Qed.

Lemma run_conversation_captures_error_witness :
  run_conversation failing_turn sample_clock "plan my week" empty_session =
  (Return (Errored "model unavailable"
             [Entry (VStr "PlannerAgent") (VStr "Here is a draft of your week.")
                    "2025-07-25T08:00:00.000001" "message"]),
   Session (Some "plan my week")
           [Entry (VStr "PlannerAgent") (VStr "Here is a draft of your week.")
                  "2025-07-25T08:00:00.000001" "message"]
           [] [] 1).
Proof.
  exact (proj1 (run_conversation_captures_error failing_turn sample_clock "plan my week"
                  [draft_message] (OtherException "RuntimeError" "model unavailable")
                  empty_session eq_refl) eq_refl).
Defined.

(** C9 (as amended).  A sink whose [emit] always returns changes nothing
    that the run returns or records: with it and without it the result and
    the history are the same, and they stay the same up to the clock
    readings when the two runs read different clocks. *)
Theorem sink_absence_noninterference
    run_stream now now' user_message user_sid task_id sk output_stats s :
  never_raises sk →
  fst (run_conversation_with_socket run_stream now user_message user_sid task_id
         (Some sk) output_stats s)
    = fst (run_conversation_with_socket run_stream now user_message user_sid task_id
             None output_stats s) ∧
  conversation_history
    (snd (run_conversation_with_socket run_stream now user_message user_sid task_id
            (Some sk) output_stats s))
    = conversation_history
        (snd (run_conversation_with_socket run_stream now user_message user_sid task_id
                None output_stats s)) ∧
  untimed_run (fst (run_conversation_with_socket run_stream now user_message user_sid
                      task_id (Some sk) output_stats s))
    = untimed_run (fst (run_conversation_with_socket run_stream now' user_message user_sid
                          task_id None output_stats s)).
Proof.
  intros Hq.
  destruct (run_stream (TaskTextMessage user_message "User")) as [ms fin] eqn:Hst.
  destruct (run_conversation_with_socket_quiet run_stream now user_message user_sid
              task_id (Some sk) output_stats ms fin s Hst Hq) as [-> ->].
  destruct (run_conversation_with_socket_quiet run_stream now user_message user_sid
              task_id None output_stats ms fin s Hst I) as [-> ->].
  destruct (run_conversation_with_socket_quiet run_stream now' user_message user_sid
              task_id None output_stats ms fin s Hst I) as [-> _].
  split; [done|]. split; [done|].
  destruct fin as [|e]; [|destruct (is_Exception e)]; cbn [untimed_run].
  - rewrite <- !fmap_last, !entries_from_length.
    by rewrite (untimed_entries_from now now' (clock_reads s) (clock_reads s) ms).
  - by rewrite (untimed_entries_from now now' (clock_reads s) (clock_reads s) ms).
  - done.
Qed.

Lemma sink_absence_noninterference_witness :
  fst (run_conversation_with_socket two_replies sample_clock "plan my week" "sid-1" "task-1"
         (Some (Sink (λ _ _, None))) true empty_session)
  = fst (run_conversation_with_socket two_replies sample_clock "plan my week" "sid-1" "task-1"
           None true empty_session).
Proof.
  exact (proj1 (sink_absence_noninterference two_replies sample_clock sample_clock
                  "plan my week" "sid-1" "task-1" (Sink (λ _ _, None)) true empty_session
                  (λ _ _, eq_refl))).
Defined.

(** C9 (as stated) fails: a sink that cannot deliver ['stream'] events ends
    the run at the first object, with an error result and a shorter history
    than the run without a sink has. *)
Lemma failing_sink_changes_result :
  fst (run_conversation_with_socket two_replies sample_clock "plan my week" "sid-1" "task-1"
         None true empty_session)
  = Return (Finished (Some true)
      [Entry (VStr "PlannerAgent") (VStr "Here is a draft of your week.")
             "2025-07-25T08:00:00.000001" "message";
       Entry (VStr "User") (VStr "Looks good.") "2025-07-25T08:00:03.500000" "message"]
      (Some (Entry (VStr "User") (VStr "Looks good.") "2025-07-25T08:00:03.500000" "message"))
      2) ∧
  fst (run_conversation_with_socket two_replies sample_clock "plan my week" "sid-1" "task-1"
         (Some failing_sink) true empty_session)
  = Return (Errored "socket closed"
      [Entry (VStr "PlannerAgent") (VStr "Here is a draft of your week.")
             "2025-07-25T08:00:00.000001" "message"]) ∧
  fst (run_conversation_with_socket two_replies sample_clock "plan my week" "sid-1" "task-1"
         (Some failing_sink) true empty_session)
  ≠ fst (run_conversation_with_socket two_replies sample_clock "plan my week" "sid-1" "task-1"
           None true empty_session).
Proof. split; [reflexivity|]. split; [reflexivity|]. discriminate. Qed.

(** With a sink that cannot deliver anything, the [except] clause's own
    [emit] raises, and the exception leaves the function. *)
Example dead_sink_escapes :
  fst (run_conversation_with_socket two_replies sample_clock "plan my week" "sid-1" "task-1"
         (Some dead_sink) true empty_session)
  = Raise (OtherException "ConnectionError" "socket closed").
Proof. reflexivity. Qed.

(** The two entry points on one stream: the same history, and the same
    result but for the key ["success"], which only the Socket.IO variant
    sets. *)
Lemma run_conversation_vs_socket
    run_stream now user_message user_sid task_id output_stats s :
  run_stream (TaskStr user_message) = run_stream (TaskTextMessage user_message "User") →
  conversation_history (snd (run_conversation run_stream now user_message s))
    = conversation_history
        (snd (run_conversation_with_socket run_stream now user_message user_sid task_id
                None output_stats s)) ∧
  match fst (run_conversation run_stream now user_message s),
        fst (run_conversation_with_socket run_stream now user_message user_sid task_id
               None output_stats s) with
  | Return (Finished k h f n), Return (Finished k' h' f' n') =>
      k = None ∧ k' = Some true ∧ h = h' ∧ f = f' ∧ n = n'
  | Return (Errored e h), Return (Errored e' h') => e = e' ∧ h = h'
  | Raise e, Raise e' => e = e'
  | _, _ => False
  end.
Proof.
  intros Hsame.
  destruct (run_stream (TaskTextMessage user_message "User")) as [ms fin] eqn:Hst.
  rewrite (run_conversation_outcome run_stream now user_message ms fin s Hsame).
  destruct (run_conversation_with_socket_quiet run_stream now user_message user_sid
              task_id None output_stats ms fin s Hst I) as [-> ->].
  cbn [fst snd conversation_history]. split; [done|].
  destruct fin as [|e]; [done|]. by destruct (is_Exception e).
Qed.

(** ** save_schedule_json: every outcome *)

Lemma collect_events_non_dict items acc w :
  (∃ item, item ∈ items ∧ ∀ m, item ≠ JDict m) →
  ∃ msg, fst (collect_events items acc w) = Raise (TypeError msg).
Proof.
  revert acc w. induction items as [|item items IH]; intros acc w (bad & Hin & Hbad).
  - by apply elem_of_nil in Hin.
  - cbn [collect_events].
    destruct item as [| | | | |m]; try (cbn; eauto; fail).
    assert (Hrest : ∃ item, item ∈ items ∧ ∀ m, item ≠ JDict m).
    { apply elem_of_cons in Hin as [->|Hin]; [by destruct (Hbad m)|eauto]. }
    rewrite build_event_dict. destruct (first_missing m) as [k|].
    + unfold bind, print.
      destruct (IH acc (World (files w) (stdout w ++ [MissingField k (JDict m)]) (calendar w))
                  Hrest) as [msg Hmsg].
      destruct (collect_events items acc _) as [[l|e] w']; cbn in *; [discriminate|].
      exists msg. congruence.
    + by apply IH.
Qed.

Lemma all_dicts_or_not (items : list json) :
  (∃ ms, items = JDict <$> ms) ∨ (∃ item, item ∈ items ∧ ∀ m, item ≠ JDict m).
Proof.
  induction items as [|item items [[ms ->]|(bad & Hin & Hbad)]].
  - left. by exists [].
  - destruct item as [| | | | |m];
      try (right; eexists; split; [apply list_elem_of_here|discriminate]).
    left. by exists (m :: ms).
  - right. exists bad. split; [by apply list_elem_of_further|done].
Qed.

(** X1.  Whatever it is given, the tool ends in one of three ways: the
    no-valid-events text, the saved text, or a [TypeError]; it never lets a
    [KeyError] out.  The [TypeError] comes exactly when the events cannot be
    iterated or one of the items visited is not an object, and then nothing
    is written and the calendar is left alone. *)
Theorem save_schedule_json_outcomes json_data w :
  (fst (save_schedule_json json_data w) = Return NO_VALID_EVENTS ∨
   fst (save_schedule_json json_data w) = Return JSON_SAVED ∨
   ∃ msg, fst (save_schedule_json json_data w) = Raise (TypeError msg)) ∧
  ((∃ msg, fst (save_schedule_json json_data w) = Raise (TypeError msg)) ↔
   ¬ ∃ ms, py_iter (default (JList []) (json_data !! "events")) = Return (JDict <$> ms)) ∧
  ((∃ msg, fst (save_schedule_json json_data w) = Raise (TypeError msg)) →
   files (snd (save_schedule_json json_data w)) = files w ∧
   calendar (snd (save_schedule_json json_data w)) = calendar w).
Proof.
  assert (Hcases :
    (∃ ms, py_iter (default (JList []) (json_data !! "events")) = Return (JDict <$> ms) ∧
           (fst (save_schedule_json json_data w) = Return NO_VALID_EVENTS ∨
            fst (save_schedule_json json_data w) = Return JSON_SAVED)) ∨
    ((¬ ∃ ms, py_iter (default (JList []) (json_data !! "events")) = Return (JDict <$> ms)) ∧
     ∃ msg, fst (save_schedule_json json_data w) = Raise (TypeError msg))).
  { unfold save_schedule_json. unfold bind at 1. unfold lift.
    destruct (py_iter _) as [items|e] eqn:Hit.
    - destruct (all_dicts_or_not items) as [[ms ->]|Hbad].
      + left. exists ms. split; [done|].
        unfold bind. rewrite collect_events_dicts. cbn [app].
        destruct (survivors ms); cbn; eauto.
      + right. split.
        * intros [ms [= ->]]. destruct Hbad as (bad & Hin & Hbad).
          apply list_elem_of_fmap in Hin as (m & -> & _). by destruct (Hbad m).
        * destruct (collect_events_non_dict items [] w Hbad) as [msg Hmsg].
          exists msg. unfold bind.
          destruct (collect_events items [] w) as [[l|e] w']; cbn in *; congruence.
    - right. split; [by intros [ms ?]|].
      destruct (default (JList []) (json_data !! "events")); cbn in Hit; try discriminate;
        injection Hit as <-; eauto. }
  split; [|split].
  - destruct Hcases as [(ms & _ & [?|?])|[_ ?]]; eauto.
  - split.
    + intros [msg Hmsg]. destruct Hcases as [(ms & _ & [H|H])|[? _]]; [| |done];
        rewrite H in Hmsg; discriminate.
    + intros Hno. destruct Hcases as [(ms & ? & _)|[_ ?]]; [|done].
      destruct Hno. eauto.
  - intros [msg Hmsg]. destruct (save_schedule_json_frame json_data w) as [Hc [Hf|[Hs _]]].
    + done.
    + rewrite Hs in Hmsg. discriminate.
Qed.

(** X2.  One item that is not an object makes the whole call fail: the tool
    raises a [TypeError] and stores nothing, whatever valid records stand
    beside it. *)
Theorem save_schedule_json_non_object_item json_data items item w :
  json_data !! "events" = Some (JList items) →
  item ∈ items → (∀ m, item ≠ JDict m) →
  (∃ msg, fst (save_schedule_json json_data w) = Raise (TypeError msg)) ∧
  files (snd (save_schedule_json json_data w)) = files w.
Proof.
  intros Hev Hin Hbad.
  destruct (save_schedule_json_outcomes json_data w) as (_ & Hiff & Hfr).
  assert (Hraise : ∃ msg, fst (save_schedule_json json_data w) = Raise (TypeError msg)).
  { apply Hiff. rewrite Hev. cbn. intros [ms [= ->]].
    apply list_elem_of_fmap in Hin as (m & -> & _). by destruct (Hbad m). }
  split; [done|]. by apply Hfr.
Qed.

Lemma save_schedule_json_non_object_item_witness :
  (∃ msg, fst (save_schedule_json {["events" := JList [JDict math_record; JStr "Learn Math"]]}
                 empty_world) = Raise (TypeError msg)) ∧
  files (snd (save_schedule_json {["events" := JList [JDict math_record; JStr "Learn Math"]]}
                empty_world)) = ∅.
Proof.
  apply (save_schedule_json_non_object_item
           {["events" := JList [JDict math_record; JStr "Learn Math"]]}
           [JDict math_record; JStr "Learn Math"] (JStr "Learn Math") empty_world).
  - reflexivity.
  - apply list_elem_of_further, list_elem_of_here.
  - discriminate.
Defined.

(** ** Frames: what a statement leaves alone *)

Section StepsWithin.
Context {S : Type} (R : relation S) `{!PreOrder R}.

Lemma steps_within_ret {A} (a : A) : steps_within R (ret a).
Proof using Type*. intros s. reflexivity. Qed.

Lemma steps_within_raise {A} e : steps_within R (@raise S A e).
Proof using Type*. intros s. reflexivity. Qed.

Lemma steps_within_lift {A} (x : outcome A) : steps_within R (lift x).
Proof using Type*. intros s. reflexivity. Qed.

Lemma steps_within_bind {A B} (c : M S A) (k : A → M S B) :
  steps_within R c → (∀ a, steps_within R (k a)) → steps_within R (bind c k).
Proof using Type*.
  intros Hc Hk s. unfold bind. specialize (Hc s).
  destruct (c s) as [[a|e] s']; cbn in *; [|done].
  by etrans; [|apply Hk].
Qed.

Lemma steps_within_for_each {A} (xs : list A) (body : A → M S unit) :
  (∀ x, steps_within R (body x)) → steps_within R (for_each xs body).
Proof using Type*.
  intros Hbody. induction xs as [|x xs IH]; cbn [for_each].
  - apply steps_within_ret.
  - apply steps_within_bind; [apply Hbody|by intros _].
Qed.

Lemma steps_within_try_except {A} (body : M S A) handler :
  steps_within R body → (∀ e, steps_within R (handler e)) →
  steps_within R (try_except_Exception body handler).
Proof using Type*.
  intros Hb Hh s. unfold try_except_Exception. specialize (Hb s).
  destruct (body s) as [[a|e] s']; cbn in *; [done|].
  destruct (is_Exception e); [|done].
  by etrans; [|apply Hh].
Qed.
End StepsWithin.

#[local] Instance same_files_outside_preorder paths : PreOrder (same_files_outside paths).
Proof.
  split.
  - intros w path _. reflexivity.
  - intros w1 w2 w3 H12 H23 path Hp. rewrite (H23 path Hp). by apply H12.
Qed.

#[local] Instance calendar_extends_preorder : PreOrder calendar_extends.
Proof.
  split; [intros w; unfold calendar_extends; reflexivity|].
  intros w1 w2 w3 H12 H23. unfold calendar_extends in *. by etrans.
Qed.

#[local] Instance stdout_extends_preorder : PreOrder stdout_extends.
Proof.
  split; [intros w; unfold stdout_extends; reflexivity|].
  intros w1 w2 w3 H12 H23. unfold stdout_extends in *. by etrans.
Qed.

#[local] Instance same_initial_message_preorder : PreOrder same_initial_message.
Proof.
  split; [intros s; reflexivity|].
  intros s1 s2 s3 H12 H23. unfold same_initial_message in *. congruence.
Qed.

(** The loop of [save_schedule_json] only prints. *)
Lemma collect_events_stdout_grows items acc : stdout_grows (collect_events items acc).
Proof.
  revert acc. induction items as [|item items IH]; intros acc; cbn [collect_events].
  - apply steps_within_ret, _.
  - destruct (build_event item) as [ev|e]; [apply IH|].
    destruct e; try (apply steps_within_raise, _).
    apply steps_within_bind; [apply _| |intros _; apply IH].
    intros w. by apply prefix_app_r.
Qed.

(** X3.  The tool touches nothing but its slot: every file other than
    [plan.json] is as it was, the calendar is as it was, and the standard
    output only gets longer. *)
Theorem save_schedule_json_touches_only_plan json_data :
  writes_only [PLAN_JSON] (save_schedule_json json_data) ∧
  (∀ w, calendar (snd (save_schedule_json json_data w)) = calendar w) ∧
  stdout_grows (save_schedule_json json_data).
Proof.
  split; [|split].
  - intros w path Hp.
    destruct (save_schedule_json_frame json_data w) as [_ [->|[_ [doc ->]]]]; [done|].
    apply lookup_insert_ne. intros <-. apply Hp, list_elem_of_here.
  - intros w. apply save_schedule_json_frame.
  - unfold save_schedule_json.
    apply steps_within_bind; [apply _|apply steps_within_lift, _|intros items].
    apply steps_within_bind; [apply _|apply collect_events_stdout_grows|intros evs].
    destruct evs; [apply steps_within_ret, _|].
    apply steps_within_bind; [apply _| |intros _; apply steps_within_ret, _].
    intros w. unfold stdout_extends. reflexivity.
Qed.

(** ** The document in the slot, and syncs after other calls *)

(** X4.  Whenever the tool reports success, the slot holds a document with
    at least one event, every event of it has exactly the fields [summary],
    [start], [end] and [description], and the calendar body of every event
    can be built: syncing such a document never stops on a missing field. *)
Theorem save_schedule_json_document_syncable json_data w :
  fst (save_schedule_json json_data w) = Return JSON_SAVED →
  ∃ evs, evs ≠ [] ∧
    files (snd (save_schedule_json json_data w)) !! PLAN_JSON
      = Some (dict [("events", JList evs)]) ∧
    Forall (λ ev,
      (∃ d, ev = JDict d ∧ dom d = {["summary"; "start"; "end"; "description"]}) ∧
      ∃ body, calendar_body ev = Return body) evs.
Proof.
  intros Hsaved.
  destruct (save_schedule_json_saved_inv _ _ Hsaved) as (ms & Hms & Hne).
  rewrite (save_schedule_json_dicts _ _ _ Hms).
  destruct (survivors ms) as [|m' ms'] eqn:Hs; [done|]. cbn [snd files].
  exists (event_of <$> m' :: ms'). split; [done|]. split; [apply lookup_insert_eq|].
  apply Forall_fmap, Forall_forall. intros m _. split.
  - destruct (event_of_format m) as (d & _ & _ & Hd & Hdom & _). eauto.
  - exists (body_of m). apply calendar_body_event_of.
Qed.

Lemma save_schedule_json_document_syncable_witness :
  ∃ evs, evs ≠ [] ∧
    files (snd (save_schedule_json (plan_of [no_end_record; bare_record]) empty_world))
      !! PLAN_JSON = Some (dict [("events", JList evs)]) ∧
    Forall (λ ev,
      (∃ d, ev = JDict d ∧ dom d = {["summary"; "start"; "end"; "description"]}) ∧
      ∃ body, calendar_body ev = Return body) evs.
Proof.
  apply (save_schedule_json_document_syncable
           (plan_of [no_end_record; bare_record]) empty_world).
  vm_compute. reflexivity.
Defined.



(** X6.  Syncing is not idempotent: a second sync of the same slot creates
    every event once more. *)
Theorem load_schedule_json_twice g ms w :
  files w !! PLAN_JSON = Some (plan_document ms) → ms ≠ [] →
  accepts_every_insert g →
  can_authorize g w → can_authorize g (snd (load_schedule_json g w)) →
  fst (load_schedule_json g w) = Return SYNCED ∧
  fst (load_schedule_json g (snd (load_schedule_json g w))) = Return SYNCED ∧
  calendar (snd (load_schedule_json g (snd (load_schedule_json g w))))
    = calendar w ++ (body_of <$> ms) ++ (body_of <$> ms).
Proof.
  intros Hslot Hne Hacc Hus1 Hus2.
  destruct (load_schedule_json_slot g ms w Hus1 Hacc Hslot Hne)
    as (fs & out & Hrun & Hfs & _).
  rewrite Hrun in *. cbn [fst snd] in *.
  match type of Hus2 with can_authorize _ ?x => set (w1 := x) in * end.
  destruct (load_schedule_json_slot g ms w1 Hus2 Hacc Hfs Hne)
    as (fs' & out' & -> & _ & _).
  cbn [fst snd calendar]. subst w1. cbn [calendar]. by rewrite <- app_assoc.
Qed.

Lemma load_schedule_json_twice_witness :
  calendar (snd (load_schedule_json accepting_google
     (snd (load_schedule_json accepting_google
        (World {[PLAN_JSON := plan_document [bare_record]]} [] [])))))
  = [body_of bare_record; body_of bare_record].
Proof.
  assert (Hacc : accepts_every_insert accepting_google)
    by (intros c cal body; eexists; reflexivity).
  assert (Hus1 : can_authorize accepting_google
                   (World {[PLAN_JSON := plan_document [bare_record]]} [] []))
    by (eexists; split; reflexivity).
  assert (Hus2 : can_authorize accepting_google
                   (snd (load_schedule_json accepting_google
                           (World {[PLAN_JSON := plan_document [bare_record]]} [] []))))
    by (eexists; split; reflexivity).
  assert (Hne : [bare_record] ≠ []) by discriminate.
  exact (proj2 (proj2 (load_schedule_json_twice accepting_google [bare_record]
                  (World {[PLAN_JSON := plan_document [bare_record]]} [] [])
                  eq_refl Hne Hacc Hus1 Hus2))).
Defined.

(** ** Syncing: failures and frames *)

(** The insertion loop when the collaborator accepts the events of [pre] and
    rejects the next one: the loop stops there. *)
Lemma insert_loop_rejects g c pre m post e w :
  Forall (λ m', ∀ cal, ∃ d, insert_execute g c cal (body_of m') = Return (JDict d)) pre →
  (∀ cal, insert_execute g c cal (body_of m) = Raise e) →
  ∃ out,
    for_each (event_of <$> pre ++ m :: post) (λ event_data,
      let! event := lift (calendar_body event_data) in
      let! created_event := insert_event g c event in
      let! link := lift (py_get created_event "htmlLink" JNull) in
      print (Created link)) w
    = (Raise e, World (files w) (stdout w ++ out) (calendar w ++ (body_of <$> pre))) ∧
    length out = length pre.
Proof.
  intros Hpre Hrej. revert w. induction Hpre as [|m' pre Hm' _ IH]; intros w.
  - exists []. split; [|done]. cbn [app fmap list_fmap for_each].
    erewrite bind_Raise; [by rewrite !app_nil_r; destruct w|].
    erewrite bind_Return by (rewrite calendar_body_event_of; reflexivity).
    erewrite bind_Raise; [reflexivity|].
    unfold insert_event. by rewrite Hrej.
  - cbn [app fmap list_fmap for_each].
    destruct (Hm' (calendar w)) as [d Hd].
    assert (Hturn :
      (let! event := lift (calendar_body (event_of m')) in
       let! created_event := insert_event g c event in
       let! link := lift (py_get created_event "htmlLink" JNull) in
       print (Created link)) w
      = (Return tt,
         World (files w)
               (stdout w ++ [Created match d !! "htmlLink" with
                                     | Some x => x
                                     | None => JNull
                                     end])
               (calendar w ++ [body_of m']))).
    { erewrite bind_Return by (rewrite calendar_body_event_of; reflexivity).
      erewrite bind_Return by (unfold insert_event; rewrite Hd; reflexivity).
      erewrite bind_Return by reflexivity.
      reflexivity. }
    match type of Hturn with context [Created ?l] => set (ln := Created l) in * end.
    destruct (IH (World (files w) (stdout w ++ [ln]) (calendar w ++ [body_of m'])))
      as (out & Hloop & Hlen).
    exists (ln :: out). split; [|by cbn; rewrite Hlen].
    rewrite (bind_Return _ _ _ _ _ Hturn).
    change (list_fmap _ _ event_of (pre ++ m :: post))
      with (event_of <$> pre ++ m :: post).
    rewrite Hloop. cbn [files stdout calendar].
    by rewrite <- !app_assoc.
Qed.

(** X7.  No rollback: when the collaborator accepts the first events of the
    stored plan and rejects the next one, the sync raises the collaborator's
    error, the accepted events stay in the calendar, the later ones are never
    sent, and the slot keeps its plan. *)
Theorem load_schedule_json_no_rollback g pre m post e w :
  files w !! PLAN_JSON = Some (plan_document (pre ++ m :: post)) →
  can_authorize g w →
  Forall (λ m', ∀ c cal, ∃ d, insert_execute g c cal (body_of m') = Return (JDict d)) pre →
  (∀ c cal, insert_execute g c cal (body_of m) = Raise e) →
  fst (load_schedule_json g w) = Raise e ∧
  calendar (snd (load_schedule_json g w)) = calendar w ++ (body_of <$> pre) ∧
  files (snd (load_schedule_json g w)) !! PLAN_JSON
    = Some (plan_document (pre ++ m :: post)).
Proof.
  intros Hslot Hus Hpre Hrej.
  destruct (can_authorize_run g w Hus) as (c & fs & Hcreds & Hfs & Hbuild).
  destruct (insert_loop_rejects g c pre m post e (World fs (stdout w) (calendar w)))
    as (out & Hloop & _).
  { eapply Forall_impl; [exact Hpre|]. intros m' Hm' cal. apply Hm'. }
  { intros cal. apply Hrej. }
  assert (Hrun : load_schedule_json g w
                 = (Raise e, World fs (stdout w ++ out) (calendar w ++ (body_of <$> pre)))).
  { unfold load_schedule_json.
    erewrite bind_Return
      by (unfold path_exists; rewrite bool_decide_true by (rewrite Hslot; eauto);
          reflexivity).
    cbn [negb].
    erewrite bind_Return by (unfold read_json; rewrite Hslot; reflexivity).
    erewrite bind_Raise; [reflexivity|].
    unfold create_events_from_plan.
    rewrite (bind_Return _ _ w (JList (event_of <$> pre ++ m :: post)) w) by reflexivity.
    replace (py_truthy (JList (event_of <$> pre ++ m :: post))) with true
      by (by destruct pre).
    cbn [negb].
    rewrite (bind_Return _ _ _ _ _ Hcreds).
    erewrite bind_Return by (unfold lift; rewrite Hbuild; reflexivity).
    erewrite bind_Return by reflexivity.
    erewrite bind_Return by reflexivity.
    erewrite bind_Raise by exact Hloop.
    reflexivity. }
  rewrite Hrun. cbn [fst snd calendar files]. by rewrite Hfs.
Qed.

Lemma load_schedule_json_no_rollback_witness :
  fst (load_schedule_json picky_google
         (World {[PLAN_JSON := plan_document [math_record; bare_record; math_record]]} [] []))
    = Raise (OtherException "HttpError" "quota exceeded") ∧
  calendar (snd (load_schedule_json picky_google
         (World {[PLAN_JSON := plan_document [math_record; bare_record; math_record]]} [] [])))
    = [body_of math_record].
Proof.
  assert (Hus : can_authorize picky_google
            (World {[PLAN_JSON := plan_document [math_record; bare_record; math_record]]}
                   [] []))
    by (eexists; split; reflexivity).
  assert (Hpre : Forall (λ m', ∀ c cal, ∃ d,
                    insert_execute picky_google c cal (body_of m') = Return (JDict d))
                   [math_record])
    by (repeat constructor; intros; eexists; reflexivity).
  pose proof (load_schedule_json_no_rollback picky_google
                [math_record] bare_record [math_record]
                (OtherException "HttpError" "quota exceeded")
                (World {[PLAN_JSON := plan_document [math_record; bare_record; math_record]]}
                       [] [])
                eq_refl Hus Hpre (λ _ _, eq_refl)) as (Hr & Hc & _).
  split; [exact Hr | exact Hc].
Defined.

(** The statements of a sync keep to any preorder that obtaining
    credentials, inserting an event and printing a line keep to. *)
Lemma load_schedule_json_steps_within (R : relation world) `{!PreOrder R} g :
  steps_within R (obtain_credentials g) →
  (∀ c body, steps_within R (insert_event g c body)) →
  (∀ l, steps_within R (print l)) →
  steps_within R (load_schedule_json g).
Proof.
  intros Hcreds Hins Hprint. unfold load_schedule_json.
  apply steps_within_bind; [done| by intros w |intros found].
  destruct found; cbn [negb]; [|by apply steps_within_raise].
  apply steps_within_bind; [done| |intros data].
  { intros w. unfold read_json. by destruct (files w !! PLAN_JSON). }
  apply steps_within_bind; [done| |intros _; by apply steps_within_ret].
  unfold create_events_from_plan.
  apply steps_within_bind; [done|by apply steps_within_lift|intros events].
  destruct (negb (py_truthy events)); [by apply steps_within_raise|].
  apply steps_within_bind; [done|done|intros creds].
  apply steps_within_bind; [done|by apply steps_within_lift|intros _].
  apply steps_within_bind; [done|by apply steps_within_lift|intros events'].
  apply steps_within_bind; [done|by apply steps_within_lift|intros items].
  apply steps_within_bind; [done| |intros _; by apply steps_within_ret].
  apply steps_within_for_each; [done|]. intros event_data.
  apply steps_within_bind; [done|by apply steps_within_lift|intros event].
  apply steps_within_bind; [done|apply Hins|intros created].
  apply steps_within_bind; [done|by apply steps_within_lift|intros link].
  apply Hprint.
Qed.

(** X8.  Whatever the slot holds and whatever the collaborator does, a sync
    writes no file but [token.json] (the slot itself is never changed), it
    removes nothing from the calendar and nothing from the standard output:
    both only get longer. *)
Theorem load_schedule_json_frame g :
  writes_only [TOKEN_JSON] (load_schedule_json g) ∧
  calendar_grows (load_schedule_json g) ∧
  stdout_grows (load_schedule_json g).
Proof.
  split; [|split]; apply load_schedule_json_steps_within; try apply _.
  - intros w path Hp. apply obtain_credentials_frame.
    intros ->. apply Hp, list_elem_of_here.
  - intros c body w path _. unfold insert_event.
    by destruct (insert_execute g c (calendar w) body).
  - by intros l w path _.
  - intros w. unfold calendar_extends.
    by destruct (obtain_credentials_frame g w) as (_ & -> & _).
  - intros c body w. unfold calendar_extends, insert_event.
    destruct (insert_execute g c (calendar w) body); cbn; [by apply prefix_app_r|done].
  - intros l w. unfold calendar_extends. done.
  - intros w. unfold stdout_extends.
    by destruct (obtain_credentials_frame g w) as (-> & _).
  - intros c body w. unfold stdout_extends, insert_event.
    by destruct (insert_execute g c (calendar w) body).
  - intros l w. unfold stdout_extends. by apply prefix_app_r.
Qed.

(** X9.  A slot whose document has no events (the field absent, empty, or
    otherwise falsy) makes the sync raise [ValueError] before any credential
    is looked for: nothing is written, printed or inserted. *)
Theorem load_schedule_json_no_events g d w :
  files w !! PLAN_JSON = Some (JDict d) →
  py_truthy (default JNull (d !! "events")) = false →
  load_schedule_json g w = (Raise (ValueError NO_EVENTS_FOUND), w).
Proof.
  intros Hslot Hfalsy. unfold load_schedule_json.
  erewrite bind_Return
    by (unfold path_exists; rewrite bool_decide_true by (rewrite Hslot; eauto); reflexivity).
  cbn [negb].
  erewrite bind_Return by (unfold read_json; rewrite Hslot; reflexivity).
  erewrite bind_Raise; [reflexivity|].
  unfold create_events_from_plan.
  erewrite bind_Return by reflexivity.
  unfold default in Hfalsy. cbn [from_option id] in Hfalsy. rewrite Hfalsy. reflexivity.
Qed.

Lemma load_schedule_json_no_events_witness :
  load_schedule_json unauthorized_google (World {[PLAN_JSON := dict [("events", JList [])]]} [] [])
  = (Raise (ValueError "No events found in the study plan."),
     World {[PLAN_JSON := dict [("events", JList [])]]} [] []).
Proof.
  exact (load_schedule_json_no_events unauthorized_google
           (list_to_map [("events", JList [])])
           (World {[PLAN_JSON := dict [("events", JList [])]]} [] []) eq_refl eq_refl).
Defined.

(** X10.  When the credentials cannot be obtained, a sync of a plan with
    events raises that very error and creates no event; it prints nothing. *)
Theorem load_schedule_json_authorization_failure g d e w :
  files w !! PLAN_JSON = Some (JDict d) →
  py_truthy (default JNull (d !! "events")) = true →
  fst (obtain_credentials g w) = Raise e →
  fst (load_schedule_json g w) = Raise e ∧
  calendar (snd (load_schedule_json g w)) = calendar w ∧
  stdout (snd (load_schedule_json g w)) = stdout w.
Proof.
  intros Hslot Htruthy Hfail.
  destruct (obtain_credentials_frame g w) as (Hout & Hcal & _).
  destruct (obtain_credentials g w) as [r w'] eqn:Hcreds. cbn [fst snd] in *. subst r.
  assert (Hrun : load_schedule_json g w = (Raise e, w')).
  { unfold load_schedule_json.
    erewrite bind_Return
      by (unfold path_exists; rewrite bool_decide_true by (rewrite Hslot; eauto);
          reflexivity).
    cbn [negb].
    erewrite bind_Return by (unfold read_json; rewrite Hslot; reflexivity).
    erewrite bind_Raise; [reflexivity|].
    unfold create_events_from_plan.
    erewrite bind_Return by reflexivity.
    unfold default in Htruthy. cbn [from_option id] in Htruthy. rewrite Htruthy.
    cbn [negb]. by erewrite bind_Raise by exact Hcreds. }
  by rewrite Hrun.
Qed.

Lemma load_schedule_json_authorization_failure_witness :
  fst (load_schedule_json unauthorized_google
         (World {[PLAN_JSON := plan_document [math_record]]} [] []))
    = Raise (FileNotFoundError "credentials.json") ∧
  calendar (snd (load_schedule_json unauthorized_google
         (World {[PLAN_JSON := plan_document [math_record]]} [] []))) = [] ∧
  stdout (snd (load_schedule_json unauthorized_google
         (World {[PLAN_JSON := plan_document [math_record]]} [] []))) = [].
Proof.
  exact (load_schedule_json_authorization_failure unauthorized_google
           (list_to_map [("events", JList (event_of <$> [math_record]))])
           (FileNotFoundError "credentials.json")
           (World {[PLAN_JSON := plan_document [math_record]]} [] [])
           eq_refl eq_refl eq_refl).
Defined.

(** X11.  Credentials: a stored token that loads as valid credentials is
    used as it is and nothing is written; with no stored token, or one that
    loads as credentials that are not valid, the credentials of the consent
    flow are returned and stored in [token.json]; a stored token that cannot
    be loaded makes the call fail without the consent flow being tried. *)
Theorem obtain_credentials_cases g w :
  (∀ tok c, files w !! TOKEN_JSON = Some tok →
     from_authorized_user_file g tok = Return c → valid c = true →
     obtain_credentials g w = (Return c, w)) ∧
  (∀ c', (files w !! TOKEN_JSON = None ∨
          ∃ tok c, files w !! TOKEN_JSON = Some tok ∧
                   from_authorized_user_file g tok = Return c ∧ valid c = false) →
     run_local_server g (files w !! CREDENTIALS_JSON) = Return c' →
     obtain_credentials g w
     = (Return c', World (<[TOKEN_JSON := to_json c']> (files w)) (stdout w) (calendar w))) ∧
  (∀ tok e, files w !! TOKEN_JSON = Some tok →
     from_authorized_user_file g tok = Raise e →
     obtain_credentials g w = (Raise e, w)).
Proof.
  unfold obtain_credentials, bind, path_exists, read_json, lift, write_json, ret.
  split; [|split].
  - intros tok c Ht Hc Hv. rewrite bool_decide_true by (rewrite Ht; eauto).
    rewrite Ht, Hc. cbn. by rewrite Hv.
  - intros c' [Hno|(tok & c & Ht & Hc & Hv)] Hflow.
    + rewrite bool_decide_false by (rewrite Hno; by intros [? ?]). cbn. by rewrite Hflow.
    + rewrite bool_decide_true by (rewrite Ht; eauto).
      rewrite Ht, Hc. cbn. rewrite Hv. cbn. by rewrite Hflow.
  - intros tok e Ht He. rewrite bool_decide_true by (rewrite Ht; eauto).
    by rewrite Ht, He.
Qed.

(** X12.  The calendar body of a stored event: [summary] and [description]
    are optional there (defaults ["Study Schedule"] and the empty string),
    while an event without [start] stops the sync with a [KeyError] that
    nothing catches. *)
Theorem calendar_body_cases d :
  (d !! "start" = None → calendar_body (JDict d) = Raise (KeyError "start")) ∧
  (∀ ds de a ta b tb,
     d !! "start" = Some (JDict ds) → ds !! "dateTime" = Some a → ds !! "timeZone" = Some ta →
     d !! "end" = Some (JDict de) → de !! "dateTime" = Some b → de !! "timeZone" = Some tb →
     calendar_body (JDict d) =
       Return (dict [("summary", default (JStr "Study Schedule") (d !! "summary"));
                     ("description", default (JStr "") (d !! "description"));
                     ("start", dict [("dateTime", a); ("timeZone", ta)]);
                     ("end", dict [("dateTime", b); ("timeZone", tb)])])) ∧
  (∀ g c w, d !! "start" = None →
     for_each [JDict d] (λ event_data,
       let! event := lift (calendar_body event_data) in
       let! created_event := insert_event g c event in
       let! link := lift (py_get created_event "htmlLink" JNull) in
       print (Created link)) w = (Raise (KeyError "start"), w)).
Proof.
  split; [|split].
  - intros Hs. unfold calendar_body. cbn. by rewrite Hs.
  - intros ds de a ta b tb Hs Ha Hta He Hb Htb. unfold calendar_body. cbn.
    rewrite Hs. cbn. rewrite Ha. cbn. rewrite Hta. cbn.
    rewrite He. cbn. rewrite Hb. cbn. by rewrite Htb.
  - intros g c w Hs. cbn [for_each].
    erewrite bind_Raise; [reflexivity|].
    erewrite bind_Raise; [reflexivity|].
    unfold lift, calendar_body. cbn. by rewrite Hs.
Qed.

(** ** The conversation runner: endings, events, the user proxy *)

Lemma last_entries_from_None now n ms : last (entries_from now n ms) = None ↔ ms = [].
Proof.
  split; [|by intros ->].
  destruct ms as [|m ms]; [done|]. intros Hl.
  apply last_None in Hl. discriminate.
Qed.

(** X13.  A run whose stream is exhausted returns the history of exactly
    the objects yielded, their number, and the last entry as final message
    ([None] exactly when nothing was yielded); whatever history an earlier
    run left on the object is dropped. *)
Theorem run_conversation_completes run_stream now user_message ms s :
  run_stream (TaskStr user_message) = Stream ms Exhausted →
  fst (run_conversation run_stream now user_message s)
    = Return (Finished None (entries_from now (clock_reads s) ms)
                       (last (entries_from now (clock_reads s) ms)) (length ms)) ∧
  conversation_history (snd (run_conversation run_stream now user_message s))
    = entries_from now (clock_reads s) ms ∧
  (last (entries_from now (clock_reads s) ms) = None ↔ ms = []).
Proof.
  intros Hst. rewrite (run_conversation_outcome _ _ _ _ _ _ Hst).
  cbn [fst snd conversation_history]. rewrite entries_from_length.
  split; [done|]. split; [done|]. apply last_entries_from_None.
Qed.

Lemma run_conversation_completes_witness :
  fst (run_conversation two_replies sample_clock "plan my week"
         (Session (Some "earlier") [Entry (VStr "User") (VStr "earlier") "t" "message"] [] [] 0))
  = Return (Finished None
      [Entry (VStr "PlannerAgent") (VStr "Here is a draft of your week.")
             "2025-07-25T08:00:00.000001" "message";
       Entry (VStr "User") (VStr "Looks good.") "2025-07-25T08:00:03.500000" "message"]
      (Some (Entry (VStr "User") (VStr "Looks good.") "2025-07-25T08:00:03.500000" "message"))
      2).
Proof.
  exact (proj1 (run_conversation_completes two_replies sample_clock "plan my week"
                  [draft_message; reply_message]
                  (Session (Some "earlier")
                           [Entry (VStr "User") (VStr "earlier") "t" "message"] [] [] 0)
                  eq_refl)).
Defined.

(** X14.  An exception that is not an [Exception] (a cancellation) is not
    turned into a result: both entry points let it out, while the history
    gathered so far stays on the object. *)
Theorem run_conversation_lets_base_exception_out run_stream now user_message ms e s :
  is_Exception e = false →
  (run_stream (TaskStr user_message) = Stream ms (Raises e) →
     fst (run_conversation run_stream now user_message s) = Raise e ∧
     conversation_history (snd (run_conversation run_stream now user_message s))
       = entries_from now (clock_reads s) ms) ∧
  (∀ user_sid task_id socketio_service output_stats,
     run_stream (TaskTextMessage user_message "User") = Stream ms (Raises e) →
     quiet socketio_service →
     fst (run_conversation_with_socket run_stream now user_message user_sid task_id
            socketio_service output_stats s) = Raise e ∧
     conversation_history
       (snd (run_conversation_with_socket run_stream now user_message user_sid task_id
               socketio_service output_stats s))
       = entries_from now (clock_reads s) ms).
Proof.
  intros He. split.
  - intros Hst. rewrite (run_conversation_outcome _ _ _ _ _ _ Hst). by rewrite He.
  - intros user_sid task_id socketio_service output_stats Hst Hq.
    destruct (run_conversation_with_socket_quiet run_stream now user_message user_sid
                task_id socketio_service output_stats ms (Raises e) s Hst Hq) as [-> ->].
    by rewrite He.
Qed.

Lemma run_conversation_lets_base_exception_out_witness :
  fst (run_conversation
         (λ _, Stream [draft_message] (Raises (BaseOnly "CancelledError" "")))
         sample_clock "plan my week" empty_session)
  = Raise (BaseOnly "CancelledError" "").
Proof.
  exact (proj1 (proj1 (run_conversation_lets_base_exception_out
                  (λ _, Stream [draft_message] (Raises (BaseOnly "CancelledError" "")))
                  sample_clock "plan my week" [draft_message]
                  (BaseOnly "CancelledError" "") empty_session eq_refl) eq_refl)).
Defined.

Lemma stream_emissions_length user_sid task_id ms :
  length (stream_emissions user_sid task_id ms)
  = length (filter (λ m, is_Some (msg_content m)) ms).
Proof.
  unfold stream_emissions. induction ms as [|m ms IH]; [done|].
  rewrite filter_cons. cbn [omap list_omap].
  destruct (msg_content m) as [c|]; cbn [fmap option_fmap option_map].
  - rewrite decide_True by eauto. cbn. by rewrite IH.
  - rewrite decide_False by (by intros [? ?]). done.
Qed.

(** X15.  The events a run delivers to a sink whose [emit] returns: one
    ['stream'] event for each yielded object that has a [content], in order
    (objects without one are recorded in the history but not streamed);
    then one ['complete'] event when the stream is exhausted, or one
    ['error'] event carrying the error text when it raised an [Exception],
    which is also logged. *)
Theorem run_conversation_with_socket_emissions
    run_stream now user_message user_sid task_id sk output_stats ms fin s :
  run_stream (TaskTextMessage user_message "User") = Stream ms fin →
  never_raises sk →
  emitted (snd (run_conversation_with_socket run_stream now user_message user_sid task_id
                  (Some sk) output_stats s))
    = emitted s ++ stream_emissions user_sid task_id ms ++
      match fin with
      | Exhausted => [complete_emission user_sid task_id]
      | Raises e => if is_Exception e then [error_emission user_sid task_id e] else []
      end ∧
  logged (snd (run_conversation_with_socket run_stream now user_message user_sid task_id
                 (Some sk) output_stats s))
    = logged s ++
      match fin with
      | Exhausted => []
      | Raises e =>
          if is_Exception e
          then [("Error in study planning conversation: " ++ str_exn e)%string]
          else []
      end ∧
  length (stream_emissions user_sid task_id ms)
    = length (filter (λ m, is_Some (msg_content m)) ms).
Proof.
  intros Hst Hq. split; [|split; [|apply stream_emissions_length]];
    unfold run_conversation_with_socket; rewrite Hst; cbv zeta; cbn [yielded ending];
    (destruct fin as [|e]; [|destruct (is_Exception e) eqn:He]).
  all: try (erewrite try_except_Return; cycle 1;
    [ do 2 erewrite bind_Return by reflexivity;
      erewrite bind_Return
        by (by apply (for_each_stream_quiet now user_sid task_id (Some sk)));
      erewrite bind_Return by reflexivity;
      erewrite bind_Return by (unfold sio_emit; rewrite (Hq _ _); reflexivity);
      reflexivity
    | cbn [snd emitted logged]; by rewrite <- ?app_assoc, ?app_nil_r ]).
  all: try (erewrite try_except_caught; [| |exact He]; cycle 1;
    [ do 2 erewrite bind_Return by reflexivity;
      erewrite bind_Return
        by (by apply (for_each_stream_quiet now user_sid task_id (Some sk)));
      reflexivity
    | erewrite bind_Return by reflexivity;
      erewrite bind_Return by (unfold sio_emit; rewrite (Hq _ _); reflexivity);
      cbn [snd emitted logged]; by rewrite <- ?app_assoc, ?app_nil_r ]).
  all: erewrite try_except_passed; [| |exact He]; cycle 1;
    [ do 2 erewrite bind_Return by reflexivity;
      erewrite bind_Return
        by (by apply (for_each_stream_quiet now user_sid task_id (Some sk)));
      reflexivity
    | cbn [snd emitted logged]; by rewrite ?app_nil_r ].
Qed.

Lemma run_conversation_with_socket_emissions_witness :
  emitted (snd (run_conversation_with_socket two_replies sample_clock "plan my week"
                  "sid-1" "task-1" (Some (Sink (λ _ _, None))) true empty_session))
  = [Emission "sid-1" "task-1" "stream" "Here is a draft of your week."
              (Some (VStr "PlannerAgent"));
     Emission "sid-1" "task-1" "stream" "Looks good." (Some (VStr "User"));
     Emission "sid-1" "task-1" "complete" "Study planning conversation completed" None].
Proof.
  exact (proj1 (run_conversation_with_socket_emissions two_replies sample_clock
                  "plan my week" "sid-1" "task-1" (Sink (λ _ _, None)) true
                  [draft_message; reply_message] Exhausted empty_session
                  eq_refl (λ _ _, eq_refl))).
Defined.

Lemma sio_emit_raises sk ex e s :
  always_raises sk ex → sio_emit sk e s = (Raise ex, s).
Proof. intros Hd. unfold sio_emit. by rewrite (Hd _ _). Qed.

(** The loop of the Socket.IO variant with a sink that always raises: it
    goes through when no object has a [content], and raises the sink's
    exception otherwise. *)
Lemma for_each_stream_dead now user_sid task_id sk ex ms s :
  always_raises sk ex →
  ∃ s',
    for_each ms (λ message,
       append_entry now message ;;
       match Some sk, msg_content message with
       | Some sk, Some c =>
           sio_emit sk (Emission user_sid task_id "stream" (py_str c)
                                 (Some (default (VStr "system") (msg_name message))))
       | _, _ => ret tt
       end) s
    = (if bool_decide (Forall (λ m, msg_content m = None) ms)
       then Return tt else Raise ex, s').
Proof.
  intros Hd. revert s. induction ms as [|m ms IH]; intros s.
  - exists s. by rewrite bool_decide_true.
  - cbn [for_each]. destruct (msg_content m) as [c|] eqn:Hc.
    + eexists. erewrite bind_Raise; cycle 1.
      { erewrite bind_Return by reflexivity. rewrite Hc. by apply sio_emit_raises. }
      rewrite bool_decide_false; [done|].
      intros HF. apply Forall_cons in HF as [HF _]. congruence.
    + erewrite bind_Return; cycle 1.
      { erewrite bind_Return by reflexivity. rewrite Hc. reflexivity. }
      match goal with |- context [for_each _ _ ?s1] => destruct (IH s1) as [s' ->] end.
      exists s'. f_equal.
      destruct (decide (Forall (λ m, msg_content m = None) ms)) as [HF|HF].
      * rewrite !bool_decide_true; [done|by constructor|done].
      * rewrite !bool_decide_false; [done| |done].
        intros HF'. by apply Forall_cons in HF' as [_ HF'].
Qed.

(** X16.  With a sink whose [emit] always raises, the Socket.IO variant
    never returns a result dict: whatever the group chat yields and however
    it ends, the call ends in an exception. *)
Theorem run_conversation_with_socket_dead_sink
    run_stream now user_message user_sid task_id sk ex output_stats s :
  always_raises sk ex →
  ∃ e, fst (run_conversation_with_socket run_stream now user_message user_sid task_id
              (Some sk) output_stats s) = Raise e.
Proof.
  intros Hd. unfold run_conversation_with_socket.
  destruct (run_stream (TaskTextMessage user_message "User")) as [ms fin].
  cbv zeta. cbn [yielded ending].
  match goal with |- context [try_except_Exception ?b ?h] =>
    set (body := b); set (handler := h) end.
  assert (Hhandler : ∀ e s', fst (handler e s') = Raise ex).
  { intros e s'. unfold handler.
    erewrite bind_Return by reflexivity.
    erewrite bind_Raise; [reflexivity|]. by apply sio_emit_raises. }
  assert (Hbody : ∃ e s', body s = (Raise e, s')).
  { unfold body. do 2 erewrite bind_Return by reflexivity.
    match goal with |- ∃ _ _, bind _ _ ?s1 = _ =>
      destruct (for_each_stream_dead now user_sid task_id sk ex ms s1 Hd) as [s' Hloop] end.
    destruct (bool_decide _).
    - erewrite bind_Return by exact Hloop.
      destruct fin as [|e].
      + erewrite bind_Return by reflexivity.
        erewrite bind_Raise; [eauto|]. by apply sio_emit_raises.
      + erewrite bind_Raise; [eauto|]. reflexivity.
    - erewrite bind_Raise by exact Hloop. eauto. }
  destruct Hbody as (e & s' & Hbody).
  unfold try_except_Exception. rewrite Hbody.
  destruct (is_Exception e); [|by exists e].
  exists ex. apply Hhandler.
Qed.

Lemma run_conversation_with_socket_dead_sink_witness :
  ∃ e, fst (run_conversation_with_socket failing_turn sample_clock "plan my week"
              "sid-1" "task-1" (Some dead_sink) true empty_session) = Raise e.
Proof.
  exact (run_conversation_with_socket_dead_sink failing_turn sample_clock "plan my week"
           "sid-1" "task-1" dead_sink (OtherException "ConnectionError" "socket closed")
           true empty_session (λ _ _, eq_refl)).
Defined.

(** What the statements of a run leave alone. *)
Lemma append_entry_keeps_initial_message now m : keeps_initial_message (append_entry now m).
Proof. by intros s. Qed.

Lemma sio_emit_keeps_initial_message sk e : keeps_initial_message (sio_emit sk e).
Proof. intros s. unfold sio_emit, same_initial_message. by destruct (emit sk (emitted s) e). Qed.

Lemma stream_loop_keeps_initial_message now user_sid task_id socketio_service ms :
  keeps_initial_message
    (for_each ms (λ message,
       append_entry now message ;;
       match socketio_service, msg_content message with
       | Some sk, Some c =>
           sio_emit sk (Emission user_sid task_id "stream" (py_str c)
                                 (Some (default (VStr "system") (msg_name message))))
       | _, _ => ret tt
       end)).
Proof.
  apply steps_within_for_each; [apply _|]. intros m.
  apply steps_within_bind; [apply _|apply append_entry_keeps_initial_message|intros _].
  destruct socketio_service as [sk|], (msg_content m) as [c|];
    first [apply sio_emit_keeps_initial_message | apply steps_within_ret, _].
Qed.

Lemma set_initial_message_then {A} user_message (rest : M session A) s :
  keeps_initial_message rest →
  initial_message (snd ((set_initial_message user_message ;; rest) s)) = Some user_message.
Proof.
  intros Hrest. unfold bind, set_initial_message.
  match goal with |- context [rest ?s1] => specialize (Hrest s1) end.
  destruct (rest _) as [[a|e] s']; cbn in *; done.
Qed.

Lemma try_except_initial_message {A} (body : M session A) handler user_message s :
  initial_message (snd (body s)) = Some user_message →
  (∀ e, keeps_initial_message (handler e)) →
  initial_message (snd (try_except_Exception body handler s)) = Some user_message.
Proof.
  intros Hbody Hh. unfold try_except_Exception.
  destruct (body s) as [[a|e] s']; cbn in *; [done|].
  destruct (is_Exception e); [|done]. by rewrite (Hh e s').
Qed.

(** X17.  The user proxy never asks anybody: once a run has started, by
    either entry point and whatever the sink does, [_get_user_input] answers
    every prompt with the opening message of that run; on an object that
    never ran it raises [AttributeError]. *)
Theorem get_user_input_returns_opening_message run_stream now user_message s :
  (∀ prompt,
     fst (_get_user_input prompt (snd (run_conversation run_stream now user_message s)))
       = Return user_message) ∧
  (∀ user_sid task_id socketio_service output_stats prompt,
     fst (_get_user_input prompt
            (snd (run_conversation_with_socket run_stream now user_message user_sid task_id
                    socketio_service output_stats s)))
       = Return user_message) ∧
  (∀ prompt s0, initial_message s0 = None →
     ∃ msg, _get_user_input prompt s0 = (Raise (AttributeError msg), s0)).
Proof.
  split; [|split].
  - intros prompt. unfold _get_user_input.
    assert (initial_message (snd (run_conversation run_stream now user_message s))
            = Some user_message) as ->; [|done].
    unfold run_conversation. apply try_except_initial_message.
    + apply set_initial_message_then.
      apply steps_within_bind; [apply _|by intros s1|intros _]. cbv zeta.
      apply steps_within_bind; [apply _| |intros _].
      { apply steps_within_for_each; [apply _|]. apply append_entry_keeps_initial_message. }
      apply steps_within_bind; [apply _| |intros _].
      { destruct (ending _); [apply steps_within_ret|apply steps_within_raise]; apply _. }
      apply steps_within_bind; [apply _|by intros s1|intros h]. apply steps_within_ret, _.
    + intros e. apply steps_within_bind; [apply _|by intros s1|intros h].
      apply steps_within_ret, _.
  - intros user_sid task_id socketio_service output_stats prompt. unfold _get_user_input.
    assert (initial_message
              (snd (run_conversation_with_socket run_stream now user_message user_sid
                      task_id socketio_service output_stats s))
            = Some user_message) as ->; [|done].
    unfold run_conversation_with_socket. apply try_except_initial_message.
    + apply set_initial_message_then.
      apply steps_within_bind; [apply _|by intros s1|intros _]. cbv zeta.
      apply steps_within_bind; [apply _|apply stream_loop_keeps_initial_message|intros _].
      apply steps_within_bind; [apply _| |intros _].
      { destruct (ending _); [apply steps_within_ret|apply steps_within_raise]; apply _. }
      apply steps_within_bind; [apply _| |intros _].
      { destruct socketio_service;
          [apply sio_emit_keeps_initial_message|apply steps_within_ret, _]. }
      apply steps_within_bind; [apply _|by intros s1|intros h]. apply steps_within_ret, _.
    + intros e. apply steps_within_bind; [apply _|by intros s1|intros _].
      apply steps_within_bind; [apply _| |intros _].
      { destruct socketio_service;
          [apply sio_emit_keeps_initial_message|apply steps_within_ret, _]. }
      apply steps_within_bind; [apply _|by intros s1|intros h]. apply steps_within_ret, _.
  - intros prompt s0 Hnone. unfold _get_user_input. rewrite Hnone. eauto.
Qed.

(** The loop of the Socket.IO variant when the first object with a
    [content] cannot be streamed. *)
Lemma for_each_stream_undelivered now user_sid task_id sk ex pre m c post s :
  Forall (λ m', msg_content m' = None) pre → msg_content m = Some c →
  (∀ past e, em_type e = "stream" → emit sk past e = Some ex) →
  for_each (pre ++ m :: post) (λ message,
     append_entry now message ;;
     match Some sk, msg_content message with
     | Some sk, Some c =>
         sio_emit sk (Emission user_sid task_id "stream" (py_str c)
                               (Some (default (VStr "system") (msg_name message))))
     | _, _ => ret tt
     end) s
  = (Raise ex,
     Session (initial_message s)
             (conversation_history s ++ entries_from now (clock_reads s) (pre ++ [m]))
             (emitted s) (logged s) (clock_reads s + length (pre ++ [m]))).
Proof.
  intros Hpre Hc Hfail. revert s. induction Hpre as [|m' pre Hm' _ IH]; intros s.
  - cbn [app for_each]. erewrite bind_Raise; cycle 1.
    { erewrite bind_Return by reflexivity. rewrite Hc.
      unfold sio_emit. rewrite Hfail by reflexivity. reflexivity. }
    cbn. by rewrite ?Hc, Nat.add_1_r.
  - cbn [app for_each]. erewrite bind_Return; cycle 1.
    { erewrite bind_Return by reflexivity. rewrite Hm'. reflexivity. }
    rewrite IH. cbn [initial_message conversation_history emitted logged clock_reads].
    cbn [entries_from length]. rewrite <- app_assoc. cbn [app]. rewrite ?Hm'.
    do 2 f_equal. lia.
Qed.

(** X18.  When the sink cannot deliver ['stream'] events but still takes
    ['error'] events, the run ends at the first yielded object that has a
    [content]: that object is the last entry of the history, nothing after
    it is consumed, the result is the error dict with the sink's error text,
    and the only event delivered is the ['error'] one. *)
Theorem run_conversation_with_socket_undelivered
    run_stream now user_message user_sid task_id sk ex output_stats pre m c post fin s :
  run_stream (TaskTextMessage user_message "User") = Stream (pre ++ m :: post) fin →
  Forall (λ m', msg_content m' = None) pre → msg_content m = Some c →
  is_Exception ex = true →
  (∀ past e, em_type e = "stream" → emit sk past e = Some ex) →
  (∀ past e, em_type e = "error" → emit sk past e = None) →
  fst (run_conversation_with_socket run_stream now user_message user_sid task_id
         (Some sk) output_stats s)
    = Return (Errored (str_exn ex) (entries_from now (clock_reads s) (pre ++ [m]))) ∧
  emitted (snd (run_conversation_with_socket run_stream now user_message user_sid task_id
                  (Some sk) output_stats s))
    = emitted s ++ [error_emission user_sid task_id ex].
Proof.
  intros Hst Hpre Hc Hex Hfail Herr.
  unfold run_conversation_with_socket. rewrite Hst. cbv zeta. cbn [yielded ending].
  erewrite try_except_caught; [| |exact Hex]; cycle 1.
  { do 2 erewrite bind_Return by reflexivity.
    erewrite bind_Raise; [reflexivity|].
    by apply (for_each_stream_undelivered now user_sid task_id sk ex pre m c post). }
  erewrite bind_Return by reflexivity.
  erewrite bind_Return
    by (unfold sio_emit; rewrite Herr by reflexivity; reflexivity).
  split; reflexivity.
Qed.

Lemma run_conversation_with_socket_undelivered_witness :
  fst (run_conversation_with_socket
         (λ _, Stream [Message None None; draft_message; reply_message] Exhausted)
         sample_clock "plan my week" "sid-1" "task-1" (Some failing_sink) true empty_session)
  = Return (Errored "socket closed"
      [Entry (VStr "Unknown") (VStr "") "2025-07-25T08:00:00.000001" "message";
       Entry (VStr "PlannerAgent") (VStr "Here is a draft of your week.")
             "2025-07-25T08:00:03.500000" "message"]).
Proof.
  assert (Hfail : ∀ past e, em_type e = "stream" →
            emit failing_sink past e = Some (OtherException "ConnectionError" "socket closed"))
    by (intros past [] Ht; cbn in *; by rewrite Ht).
  assert (Herr : ∀ past e, em_type e = "error" → emit failing_sink past e = None)
    by (intros past [] Ht; cbn in *; by rewrite Ht).
  assert (Hpre : Forall (λ m', msg_content m' = None) [Message None None])
    by (repeat constructor).
  exact (proj1 (run_conversation_with_socket_undelivered
                  (λ _, Stream [Message None None; draft_message; reply_message] Exhausted)
                  sample_clock "plan my week" "sid-1" "task-1" failing_sink
                  (OtherException "ConnectionError" "socket closed") true
                  [Message None None] draft_message
                  (VStr "Here is a draft of your week.") [reply_message] Exhausted
                  empty_session eq_refl Hpre eq_refl eq_refl Hfail Herr)).
Defined.

(** ** Saving and loading the team state *)

(** X19.  The two state methods never let an [Exception] out.
    [load_state] returns [True] exactly when the group chat's own
    [load_state] returns, and [False], after printing one line, exactly when
    it raises an [Exception]; [save_state] returns the group chat's state,
    or a dict with the single key [error] when that raises an [Exception]. *)
Theorem state_methods_capture_exceptions team_save_state team_load_state state out :
  (fst (load_state team_load_state state out) = Return true ↔
     team_load_state state = Return tt) ∧
  (fst (load_state team_load_state state out) = Return false ↔
     ∃ e, team_load_state state = Raise e ∧ is_Exception e = true) ∧
  (fst (load_state team_load_state state out) = Return false →
     ∃ l, snd (load_state team_load_state state out) = out ++ [l]) ∧
  (∀ e, fst (load_state team_load_state state out) = Raise e → is_Exception e = false) ∧
  (∀ e, fst (save_state team_save_state out) = Raise e → is_Exception e = false) ∧
  (∀ e, team_save_state = Raise e → is_Exception e = true →
     ∃ d, save_state team_save_state out = (Return (JDict d), out) ∧ dom d = {["error"]}) ∧
  (∀ st, team_save_state = Return st → save_state team_save_state out = (Return st, out)).
Proof.
  unfold load_state, save_state, try_except_Exception, bind, lift, ret.
  destruct (team_load_state state) as [[]|e] eqn:Hl; cbn;
    [|destruct (is_Exception e) eqn:He; cbn].
  all: destruct team_save_state as [st|e'] eqn:Hs; cbn;
    [|destruct (is_Exception e') eqn:He'; cbn].
  all: repeat split; try done; try (intros [e0 [[=] ?]]; congruence);
    try (intros e0 [=]; congruence); try (intros; discriminate);
    try (intros; simplify_eq; eauto; fail).
  all: try (intros _; eauto; fail).
  all: try (intros e0 [= <-] _; eexists; split; [reflexivity|]; cbn;
            rewrite insert_empty; apply dom_singleton_L).
  all: try (intros st0 [= <-]; done).
Qed.

(** ** The manager's registry *)

(** X20.  A team created under an id is the one [get_team] finds there, it
    replaces whatever team was registered under that id, and no other id is
    affected; the new team is not cancelled, has an empty history, and its
    group chat is given the manager's turn budget (10 when none is passed,
    not the class default of 5). *)
Theorem create_team_registers task_id llm_client max_turns active_teams :
  get_team task_id (snd (create_team task_id llm_client max_turns active_teams))
    = Some (fst (create_team task_id llm_client max_turns active_teams)) ∧
  (∀ other, other ≠ task_id →
     get_team other (snd (create_team task_id llm_client max_turns active_teams))
       = get_team other active_teams) ∧
  (∀ llm_client' max_turns',
     snd (create_team task_id llm_client max_turns
            (snd (create_team task_id llm_client' max_turns' active_teams)))
       = snd (create_team task_id llm_client max_turns active_teams)) ∧
  chat_max_turns (team (fst (create_team task_id llm_client max_turns active_teams)))
    = default 10 max_turns ∧
  cancelled (fst (create_team task_id llm_client max_turns active_teams)) = false ∧
  team_history (fst (create_team task_id llm_client max_turns active_teams)) = [].
Proof.
  unfold create_team, get_team. cbn [fst snd]. repeat split.
  - apply lookup_insert_eq.
  - intros other Hne. by apply lookup_insert_ne.
  - intros llm_client' max_turns'. apply insert_insert_eq.
Qed.

(** X21.  Removing an id leaves nothing under it and touches no other id;
    removing an id that is not registered changes nothing; and a team
    created under a fresh id and then removed leaves the registry as it
    was. *)
Theorem remove_team_unregisters task_id active_teams :
  get_team task_id (remove_team task_id active_teams) = None ∧
  (∀ other, other ≠ task_id →
     get_team other (remove_team task_id active_teams) = get_team other active_teams) ∧
  (get_team task_id active_teams = None → remove_team task_id active_teams = active_teams) ∧
  remove_team task_id (remove_team task_id active_teams) = remove_team task_id active_teams ∧
  (∀ llm_client max_turns, get_team task_id active_teams = None →
     remove_team task_id (snd (create_team task_id llm_client max_turns active_teams))
       = active_teams).
Proof.
  unfold remove_team, get_team, create_team. cbn [snd].
  destruct (active_teams !! task_id) as [t|] eqn:Hl.
  - rewrite bool_decide_true by eauto. rewrite lookup_delete_eq.
    rewrite bool_decide_false by (by intros [? ?]).
    repeat split; try done.
    intros other Hne. by apply lookup_delete_ne.
  - rewrite bool_decide_false by (by intros [? ?]). rewrite Hl.
    rewrite bool_decide_false by (by intros [? ?]).
    repeat split; try done.
    intros llm_client max_turns _.
    rewrite bool_decide_true by (rewrite lookup_insert_eq; eauto).
    by rewrite delete_insert_eq, delete_id.
Qed.

(** Instances of X11 and X12 on concrete data. *)
Lemma obtain_credentials_cases_witness :
  obtain_credentials accepting_google (World {[TOKEN_JSON := JStr "stored token"]} [] [])
  = (Return (Credentials true JNull), World {[TOKEN_JSON := JStr "stored token"]} [] []).
Proof.
  exact (proj1 (obtain_credentials_cases accepting_google
                  (World {[TOKEN_JSON := JStr "stored token"]} [] []))
               (JStr "stored token") (Credentials true JNull) eq_refl eq_refl eq_refl).
Defined.

Lemma calendar_body_cases_witness :
  calendar_body (dict [("summary", JStr "Learn Math")]) = Raise (KeyError "start").
Proof.
  exact (proj1 (calendar_body_cases (list_to_map [("summary", JStr "Learn Math")])) eq_refl).
Defined.
